(** * Multi-provider upload coordinator: model and properties

    A shallow embedding of
      - bots/bot_controller/unified_storage_manager.py
      - bots/bot_controller/azure_file_uploader.py
    Dictionaries ([os.environ], the per-provider [config] dict) are finite
    maps; objects that are shared and mutated (the uploaders) live in a heap
    indexed by object identity; statements that log, call back, start a
    thread or raise run in a state-and-exception monad whose state carries
    the chronological event trace.

    What lies outside the two modules (the Azure SDK, the file system,
    [threading], the S3 [FileUploader]) is a record of outcomes, [Externals]:
    each call either returns or raises what the record says.  The result of
    the guarded SDK import is the boolean [AZURE_AVAILABLE].  A call of a
    callback supplied by the caller is an event of the trace. *)

From Stdlib Require Import Ascii.
From stdpp Require Import base strings gmap list.

(** ** Python values *)

(** [str.lower()].  Environment values are byte strings here; only the
    ASCII letters A-Z are folded.  None of the mode names below contains a
    letter that some non-ASCII character lowers to, so membership of
    [mode.lower()] in the mode lists is unaffected. *)
Definition lower_char (c : ascii) : ascii :=
  let n := nat_of_ascii c in
  if (65 <=? n)%nat && (n <=? 90)%nat then ascii_of_nat (n + 32) else c.

Fixpoint lower (s : string) : string :=
  match s with
  | EmptyString => EmptyString
  | String c s' => String (lower_char c) (lower s')
  end.

(** [bool(v)] for a value of type [Optional[str]]. *)
Definition truthy (v : option string) : bool :=
  match v with
  | None => false
  | Some s => negb (String.eqb s "")
  end.

(** Text of [v] inside an f-string. *)
Definition fmt (v : option string) : string :=
  match v with
  | None => "None"
  | Some s => s
  end.

(** [os.getenv(key)] and [os.getenv(key, default)]. *)
Definition getenv (env : gmap string string) (key : string) : option string :=
  env !! key.

Definition getenv_default (env : gmap string string) (key dflt : string) : string :=
  default dflt (getenv env key).

(** Exceptions.  Every class below derives from [Exception]. *)
Inductive exc_class :=
  | ImportError | ValueError | KeyError | TypeError | FileNotFoundError
  | RuntimeError | OSError | AzureError.

Record exn := Exn { exn_class : exc_class; exn_msg : string }.

Inductive result (A : Type) :=
  | Ok (a : A)
  | Raise (e : exn).
Arguments Ok {A} a.
Arguments Raise {A} e.

(** ** Data model *)

Inductive StorageProvider := AWS_S3 | AZURE_BLOB.

(** [StorageProvider.value] *)
Definition value (p : StorageProvider) : string :=
  match p with
  | AWS_S3 => "s3"
  | AZURE_BLOB => "azure"
  end.

Record StorageConfig := mkStorageConfig {
  provider : StorageProvider;
  config : gmap string (option string)
}.

(** [d.get(key)] on a dict whose values are [Optional[str]]. *)
Definition dict_get (d : gmap string (option string)) (key : string) : option string :=
  mjoin (d !! key).

(** [d[key]]: raises [KeyError] when the key is missing. *)
Definition dict_getitem (d : gmap string (option string)) (key : string)
  : result (option string) :=
  match d !! key with
  | Some v => Ok v
  | None => Raise (Exn KeyError ("'" +:+ key +:+ "'"))
  end.

(** [StorageConfig.validate] *)
Definition validate (c : StorageConfig) : bool :=
  match provider c with
  | AWS_S3 => truthy (dict_get (config c) "bucket")
  | AZURE_BLOB => truthy (dict_get (config c) "container_name")
  end.

(** Callables handed to an uploader as completion callback, by identity:
    the two closures built by the coordinator, and anything a caller
    supplies.  An invocation of a caller-supplied callable is recorded as an
    event; what the callee does is outside the model. *)
Inductive callable :=
  | s3_callback
  | azure_callback
  | caller_callable (tag : nat).

Inductive Credential :=
  | DefaultAzureCredential
  | AccountKeyCredential (account_key : string).

(** A [BlobServiceClient], by the way it was built. *)
Inductive BlobServiceClient :=
  | ClientForAccount (account_url : string) (credential : Credential)
  | ClientFromConnectionString (connection_string : string).

(** [threading.Thread(target=self._upload_worker, args=(file_path, callback),
    daemon=True)] *)
Record Thread := mkThread {
  thread_file_path : string;
  thread_callback : option callable
}.

Record AzureFileUploader := mkAzureFileUploader {
  container_name : option string;
  blob_name : string;
  _upload_thread : option Thread;
  blob_service_client : BlobServiceClient
}.

(** [FileUploader] (bots/bot_controller/file_uploader.py) is imported by the
    coordinator; an instance is represented by its constructor arguments. *)
Record FileUploader := mkFileUploader {
  fu_bucket : option string;
  fu_key : string;
  fu_endpoint_url : option string;
  fu_region_name : option string;
  fu_access_key_id : option string;
  fu_access_key_secret : option string
}.

Inductive Uploader :=
  | S3Uploader (u : FileUploader)
  | AzureUploader (u : AzureFileUploader).

(** References to uploader objects are heap addresses. *)
Record UnifiedStorageManager := mkUnifiedStorageManager {
  file_key : string;
  storage_configs : list StorageConfig;
  upload_threads : list nat;
  azure_uploader : option nat
}.

(** ** Events *)

Inductive logger_method := info | warning | error | exception.

Inductive event :=
  | Log (m : logger_method) (msg : string)
    (* callback(provider_name, success), the caller's callback *)
  | CallCallback (c : callable) (provider_name : string) (success : bool)
    (* callback(success), the callback given to an uploader *)
  | CallUploaderCallback (c : callable) (success : bool)
    (* Thread.start() returned: the background upload is running *)
  | ThreadStart (uploader : nat) (t : Thread)
    (* FileUploader.upload_file returned *)
  | S3UploadStart (uploader : nat) (file_path : string) (c : option callable)
    (* uploader.wait_for_upload() is entered *)
  | WaitForUpload (uploader : nat)
  | ThreadJoin (uploader : nat)
    (* blob_client.upload_blob(data, overwrite=True, max_concurrency=4) returned *)
  | UploadBlob (container : option string) (blob : string) (file_path : string).

(** ** The world outside the two modules *)

Record Externals := mkExternals {
  (* azure.identity / azure.storage.blob *)
  new_DefaultAzureCredential : option exn;
  new_BlobServiceClient : string -> Credential -> option exn;
  from_connection_string : string -> option exn;
  get_blob_client : BlobServiceClient -> option string -> string -> option exn;
  blob_client_url : BlobServiceClient -> option string -> string -> string;
  upload_blob : BlobServiceClient -> option string -> string -> string -> option exn;
  (* pathlib / builtins *)
  path_exists : string -> result bool;
  open_rb : string -> option exn;
  (* threading *)
  thread_start : Thread -> option exn;
  thread_is_alive : nat -> bool;
  thread_join : nat -> option exn;
  (* file_uploader.FileUploader *)
  new_FileUploader : FileUploader -> option exn;
  FileUploader_upload_file : FileUploader -> string -> option callable -> option exn;
  FileUploader_wait_for_upload : nat -> option exn
}.

(** ** Program state and the monad of statements *)

Record State := mkState {
  self : UnifiedStorageManager;
  heap : gmap nat Uploader;
  next_oid : nat;
  successful_uploads : list string;
  failed_uploads : list string;
  trace : list event
}.

Definition M (A : Type) : Type := State -> result A * State.

#[global] Instance M_ret : MRet M := fun A (a : A) st => (Ok a, st).

#[global] Instance M_bind : MBind M := fun A B (k : A -> M B) (m : M A) st =>
  match m st with
  | (Ok a, st') => k a st'
  | (Raise e, st') => (Raise e, st')
  end.

Definition raise {A} (e : exn) : M A := fun st => (Raise e, st).

(** [try: body  except Exception as e: handler(e)] *)
Definition try_except {A} (body : M A) (handler : exn -> M A) : M A :=
  fun st =>
    match body st with
    | (Ok a, st') => (Ok a, st')
    | (Raise e, st') => handler e st'
    end.

Definition get_state : M State := fun st => (Ok st, st).

Definition modify (f : State -> State) : M unit := fun st => (Ok tt, f st).

Definition lift {A} (r : result A) : M A := fun st => (r, st).

(** An external call that returns nothing: it raises or it does not. *)
Definition call (o : option exn) : M unit :=
  match o with
  | Some e => raise e
  | None => mret tt
  end.

Definition emit (ev : event) : M unit :=
  modify (fun st =>
    mkState (self st) (heap st) (next_oid st)
            (successful_uploads st) (failed_uploads st) (trace st ++ [ev])).

Definition logger (m : logger_method) (msg : string) : M unit := emit (Log m msg).

Definition set_self (f : UnifiedStorageManager -> UnifiedStorageManager) : M unit :=
  modify (fun st =>
    mkState (f (self st)) (heap st) (next_oid st)
            (successful_uploads st) (failed_uploads st) (trace st)).

(** Allocation of a new object. *)
Definition alloc (o : Uploader) : M nat :=
  fun st =>
    (Ok (next_oid st),
     mkState (self st) (<[next_oid st := o]> (heap st)) (S (next_oid st))
             (successful_uploads st) (failed_uploads st) (trace st)).

Definition store (r : nat) (o : Uploader) : M unit :=
  modify (fun st =>
    mkState (self st) (<[r := o]> (heap st)) (next_oid st)
            (successful_uploads st) (failed_uploads st) (trace st)).

(** Attribute access through a reference to an [AzureFileUploader]. *)
Definition deref_azure (r : nat) : M AzureFileUploader :=
  fun st =>
    match heap st !! r with
    | Some (AzureUploader u) => (Ok u, st)
    | _ => (Raise (Exn TypeError "not an AzureFileUploader"), st)
    end.

(** ** bots/bot_controller/azure_file_uploader.py *)

Module azure_file_uploader.
Section azure_file_uploader.

(** The outcome of the guarded import at the top of the module. *)
Variable AZURE_AVAILABLE : bool.
Variable ext : Externals.

(** [except AzureError]: without the SDK, [AzureError] is [Exception]. *)
Definition is_AzureError (e : exn) : bool :=
  if AZURE_AVAILABLE
  then match exn_class e with AzureError => true | _ => false end
  else true.

Definition account_url (storage_account_name : option string) : string :=
  "https://" +:+ fmt storage_account_name +:+ ".blob.core.windows.net".

Definition _initialize_blob_service_client
    (storage_account_name connection_string account_key : option string)
  : M BlobServiceClient :=
  try_except
    (if truthy storage_account_name && negb (truthy connection_string)
          && negb (truthy account_key) then
       logger info "Using managed identity authentication for Azure Storage";;
       call (new_DefaultAzureCredential ext);;
       call (new_BlobServiceClient ext (account_url storage_account_name)
               DefaultAzureCredential);;
       mret (ClientForAccount (account_url storage_account_name)
               DefaultAzureCredential)
     else if truthy connection_string then
       logger info "Using connection string authentication for Azure Storage";;
       call (from_connection_string ext (fmt connection_string));;
       mret (ClientFromConnectionString (fmt connection_string))
     else if truthy storage_account_name && truthy account_key then
       logger warning
         "Using account key authentication for Azure Storage - not recommended for production";;
       call (new_BlobServiceClient ext (account_url storage_account_name)
               (AccountKeyCredential (fmt account_key)));;
       mret (ClientForAccount (account_url storage_account_name)
               (AccountKeyCredential (fmt account_key)))
     else
       raise (Exn ValueError
         "Must provide either storage_account_name (for managed identity), connection_string, or storage_account_name with account_key"))
    (fun e =>
       logger error ("Failed to initialize Azure Blob Service Client: " +:+ exn_msg e);;
       raise e).

(** [AzureFileUploader(container_name, blob_name, ...)]: the reference to
    the new object. *)
Definition __init__ (container_name : option string) (blob_name : string)
    (storage_account_name connection_string account_key : option string)
  : M nat :=
  if negb AZURE_AVAILABLE then
    raise (Exn ImportError
      "Azure Storage SDK not installed. Install with: pip install azure-storage-blob azure-identity")
  else
    client ← _initialize_blob_service_client
               storage_account_name connection_string account_key;
    alloc (AzureUploader
             (mkAzureFileUploader container_name blob_name None client)).

Definition upload_file (r : nat) (file_path : string)
    (callback : option callable) : M unit :=
  u ← deref_azure r;
  let t := mkThread file_path callback in
  store r (AzureUploader
             (mkAzureFileUploader (container_name u) (blob_name u) (Some t)
                (blob_service_client u)));;
  call (thread_start ext t);;
  emit (ThreadStart r t).

Definition invoke (callback : option callable) (success : bool) : M unit :=
  match callback with
  | Some c => emit (CallUploaderCallback c success)
  | None => mret tt
  end.

Definition blob_path (u : AzureFileUploader) : string :=
  fmt (container_name u) +:+ "/" +:+ blob_name u.

(** The body of the background thread started by [upload_file]. *)
Definition _upload_worker (u : AzureFileUploader) (file_path : string)
    (callback : option callable) : M unit :=
  try_except
    (present ← lift (path_exists ext file_path);
     (if negb present
      then raise (Exn FileNotFoundError ("File not found: " +:+ file_path))
      else mret tt);;
     call (get_blob_client ext (blob_service_client u) (container_name u)
             (blob_name u));;
     call (open_rb ext file_path);;
     call (upload_blob ext (blob_service_client u) (container_name u)
             (blob_name u) file_path);;
     emit (UploadBlob (container_name u) (blob_name u) file_path);;
     logger info ("Successfully uploaded " +:+ file_path +:+ " to Azure blob: "
                    +:+ blob_path u);;
     invoke callback true)
    (fun e =>
       if is_AzureError e then
         logger error ("Azure Storage upload error: " +:+ exn_msg e);;
         invoke callback false
       else
         logger error ("Upload error: " +:+ exn_msg e);;
         invoke callback false).

Definition wait_for_upload (r : nat) : M unit :=
  u ← deref_azure r;
  match _upload_thread u with
  | Some _ =>
      if thread_is_alive ext r
      then call (thread_join ext r);; emit (ThreadJoin r)
      else mret tt
  | None => mret tt
  end.

Definition get_blob_url (r : nat) : M string :=
  u ← deref_azure r;
  call (get_blob_client ext (blob_service_client u) (container_name u)
          (blob_name u));;
  mret (blob_client_url ext (blob_service_client u) (container_name u)
          (blob_name u)).

End azure_file_uploader.
End azure_file_uploader.

(** ** bots/bot_controller/unified_storage_manager.py *)

Module unified_storage_manager.
Section unified_storage_manager.

Variable AZURE_AVAILABLE : bool.
Variable ext : Externals.
(** [os.environ] *)
Variable env : gmap string string.

(** *** Configuration loader.  It only reads [env]; the warnings it logs
    are returned next to its value. *)

Definition _should_use_aws : bool :=
  let upload_mode := lower (getenv_default env "STORAGE_UPLOAD_MODE" "s3") in
  bool_decide (upload_mode ∈ ["s3"; "both"; "all"]).

Definition _should_use_azure : bool :=
  let upload_mode := lower (getenv_default env "STORAGE_UPLOAD_MODE" "s3") in
  bool_decide (upload_mode ∈ ["azure"; "both"; "all"]) && AZURE_AVAILABLE.

Definition _get_aws_config : option (gmap string (option string)) * list event :=
  let bucket := getenv env "AWS_RECORDING_STORAGE_BUCKET_NAME" in
  if negb (truthy bucket) then
    (None, [Log warning "AWS bucket name not configured"])
  else
    (Some (list_to_map
             [("bucket", bucket);
              ("endpoint_url", getenv env "AWS_ENDPOINT_URL");
              ("region_name", getenv env "AWS_DEFAULT_REGION");
              ("access_key_id", getenv env "AWS_ACCESS_KEY_ID");
              ("secret_access_key", getenv env "AWS_SECRET_ACCESS_KEY")]),
     []).

Definition _get_azure_config : option (gmap string (option string)) * list event :=
  let container_name := getenv env "AZURE_STORAGE_CONTAINER_NAME" in
  if negb (truthy container_name) then
    (None, [Log warning "Azure container name not configured"])
  else
    let config : gmap string (option string) :=
      list_to_map
        [("container_name", container_name);
         ("storage_account_name", getenv env "AZURE_STORAGE_ACCOUNT_NAME");
         ("connection_string", getenv env "AZURE_STORAGE_CONNECTION_STRING");
         ("account_key", getenv env "AZURE_STORAGE_ACCOUNT_KEY")] in
    if negb (truthy (dict_get config "storage_account_name")
             || truthy (dict_get config "connection_string")
             || truthy (dict_get config "account_key")) then
      (None, [Log warning "No Azure Storage authentication method configured"])
    else
      (Some config, []).

(** [if d: configs.append(StorageConfig(p, d))] for [d : Optional[dict]];
    an empty dict is falsy. *)
Definition append_if (configs : list StorageConfig) (p : StorageProvider)
    (d : option (gmap string (option string))) : list StorageConfig :=
  match d with
  | Some m => if bool_decide (m = ∅) then configs else configs ++ [mkStorageConfig p m]
  | None => configs
  end.

Definition _load_storage_configs : list StorageConfig * list event :=
  let configs := [] in
  let '(configs, w1) :=
    if _should_use_aws then
      let '(s3_config, w) := _get_aws_config in
      (append_if configs AWS_S3 s3_config, w)
    else (configs, []) in
  let '(configs, w2) :=
    if _should_use_azure then
      let '(azure_config, w) := _get_azure_config in
      (append_if configs AZURE_BLOB azure_config, w)
    else (configs, []) in
  (List.filter validate configs, w1 ++ w2).

(** [UnifiedStorageManager(file_key)]: the state right after construction. *)
Definition __init__ (file_key : string) : State :=
  mkState
    (mkUnifiedStorageManager file_key _load_storage_configs.1 [] None)
    ∅ 0 [] [] _load_storage_configs.2.

(** *** Properties *)

Definition has_storage_configured (m : UnifiedStorageManager) : bool :=
  bool_decide (0 < length (storage_configs m)).

Definition configured_providers (m : UnifiedStorageManager) : list string :=
  (fun c => value (provider c)) <$> storage_configs m.

(** *** Uploads *)

(** The aggregation callback, local to [upload_file]; [callback] is the
    caller's. *)
Definition upload_callback (callback : option callable)
    (provider_name : string) (success : bool) : M unit :=
  (if success then
     modify (fun st =>
       mkState (self st) (heap st) (next_oid st)
               (successful_uploads st ++ [provider_name]) (failed_uploads st)
               (trace st));;
     logger info ("Successfully uploaded to " +:+ provider_name)
   else
     modify (fun st =>
       mkState (self st) (heap st) (next_oid st)
               (successful_uploads st) (failed_uploads st ++ [provider_name])
               (trace st));;
     logger error ("Failed to upload to " +:+ provider_name));;
  match callback with
  | Some c => emit (CallCallback c provider_name success)
  | None => mret tt
  end.

(** What the closures handed to the uploaders do when an uploader calls
    them. *)
Definition run_callable (callback : option callable) (c : callable)
    (success : bool) : M unit :=
  match c with
  | s3_callback => upload_callback callback "AWS S3" success
  | azure_callback => upload_callback callback "Azure Blob Storage" success
  | caller_callable _ => emit (CallUploaderCallback c success)
  end.

Definition _upload_to_s3 (cfg : StorageConfig) (file_path : string) : M unit :=
  bucket ← lift (dict_getitem (config cfg) "bucket");
  st ← get_state;
  let fu :=
    mkFileUploader bucket (file_key (self st))
      (dict_get (config cfg) "endpoint_url")
      (dict_get (config cfg) "region_name")
      (dict_get (config cfg) "access_key_id")
      (dict_get (config cfg) "secret_access_key") in
  call (new_FileUploader ext fu);;
  uploader ← alloc (S3Uploader fu);
  call (FileUploader_upload_file ext fu file_path (Some s3_callback));;
  emit (S3UploadStart uploader file_path (Some s3_callback));;
  set_self (fun m =>
    mkUnifiedStorageManager (file_key m) (storage_configs m)
      (upload_threads m ++ [uploader]) (azure_uploader m)).

Definition _upload_to_azure (cfg : StorageConfig) (file_path : string) : M unit :=
  container ← lift (dict_getitem (config cfg) "container_name");
  st ← get_state;
  uploader ← azure_file_uploader.__init__ AZURE_AVAILABLE ext
               container (file_key (self st))
               (dict_get (config cfg) "storage_account_name")
               (dict_get (config cfg) "connection_string")
               (dict_get (config cfg) "account_key");
  set_self (fun m =>
    mkUnifiedStorageManager (file_key m) (storage_configs m)
      (upload_threads m) (Some uploader));;
  azure_file_uploader.upload_file ext uploader file_path (Some azure_callback);;
  set_self (fun m =>
    mkUnifiedStorageManager (file_key m) (storage_configs m)
      (upload_threads m ++ [uploader]) (azure_uploader m)).

(** [for config in self.storage_configs: try: ... except Exception as e: ...] *)
Fixpoint upload_loop (configs : list StorageConfig) (file_path : string)
    (callback : option callable) : M unit :=
  match configs with
  | [] => mret tt
  | config :: rest =>
      try_except
        (match provider config with
         | AWS_S3 => _upload_to_s3 config file_path
         | AZURE_BLOB => _upload_to_azure config file_path
         end)
        (fun e =>
           logger exception ("Error starting upload to " +:+ value (provider config)
                               +:+ ": " +:+ exn_msg e);;
           upload_callback callback (value (provider config)) false);;
      upload_loop rest file_path callback
  end.

Definition upload_file (file_path : string) (callback : option callable) : M unit :=
  st ← get_state;
  match storage_configs (self st) with
  | [] => logger error "No storage providers configured"
  | _ :: _ =>
      modify (fun st =>
        mkState (self st) (heap st) (next_oid st) [] [] (trace st));;
      upload_loop (storage_configs (self st)) file_path callback
  end.

(** [uploader.wait_for_upload()], dispatched on the class of the object. *)
Definition uploader_wait_for_upload (r : nat) : M unit :=
  emit (WaitForUpload r);;
  st ← get_state;
  match heap st !! r with
  | Some (S3Uploader _) => call (FileUploader_wait_for_upload ext r)
  | Some (AzureUploader _) => azure_file_uploader.wait_for_upload ext r
  | None => raise (Exn TypeError "no such object")
  end.

Fixpoint wait_loop (uploaders : list nat) : M unit :=
  match uploaders with
  | [] => mret tt
  | uploader :: rest =>
      try_except (uploader_wait_for_upload uploader)
        (fun e => logger exception ("Error waiting for upload: " +:+ exn_msg e));;
      wait_loop rest
  end.

Definition wait_for_uploads : M unit :=
  st ← get_state;
  wait_loop (upload_threads (self st)).

Definition get_azure_blob_url : M (option string) :=
  st ← get_state;
  match azure_uploader (self st) with
  | Some r =>
      try_except
        (url ← azure_file_uploader.get_blob_url ext r; mret (Some url))
        (fun e =>
           logger error ("Failed to get Azure blob URL: " +:+ exn_msg e);;
           mret None)
  | None => mret None
  end.

End unified_storage_manager.
End unified_storage_manager.

(** ** Vocabulary of the statements *)

(** *** Reading traces *)

(** The identities of the uploaders whose background upload was started,
    in the order of the starts. *)
Fixpoint started (tr : list event) : list nat :=
  match tr with
  | [] => []
  | ThreadStart r _ :: tr' => r :: started tr'
  | S3UploadStart r _ _ :: tr' => r :: started tr'
  | _ :: tr' => started tr'
  end.

(** The calls of the caller's callback, in order. *)
Fixpoint callbacks (tr : list event) : list (string * bool) :=
  match tr with
  | [] => []
  | CallCallback _ name success :: tr' => (name, success) :: callbacks tr'
  | _ :: tr' => callbacks tr'
  end.

(** The calls of the callback given to an uploader, in order. *)
Fixpoint uploader_callbacks (tr : list event) : list bool :=
  match tr with
  | [] => []
  | CallUploaderCallback _ success :: tr' => success :: uploader_callbacks tr'
  | _ :: tr' => uploader_callbacks tr'
  end.

(** The uploaders on which [wait_for_upload] was called, in order. *)
Fixpoint waited (tr : list event) : list nat :=
  match tr with
  | [] => []
  | WaitForUpload r :: tr' => r :: waited tr'
  | _ :: tr' => waited tr'
  end.

(** The messages logged through [logger.exception]. *)
Fixpoint exception_logs (tr : list event) : list string :=
  match tr with
  | [] => []
  | Log exception msg :: tr' => msg :: exception_logs tr'
  | _ :: tr' => exception_logs tr'
  end.

(** The events added between two states of one history. *)
Definition new_events (before after : State) : list event :=
  drop (length (trace before)) (trace after).

(** *** States *)

Definition with_trace (st : State) (tr : list event) : State :=
  mkState (self st) (heap st) (next_oid st)
          (successful_uploads st) (failed_uploads st) tr.

(** [st] after one more object was allocated, with trace [tr]. *)
Definition with_object (st : State) (o : Uploader) (tr : list event) : State :=
  mkState (self st) (<[next_oid st := o]> (heap st)) (S (next_oid st))
          (successful_uploads st) (failed_uploads st) tr.

(** No object lives at or above the allocation pointer. *)
Definition heap_bounded (st : State) : Prop :=
  forall r, next_oid st <= r -> heap st !! r = None.

(** *** Configuration *)

(** The recognised values of [STORAGE_UPLOAD_MODE], after lowering. *)
Definition recognised_modes : list string := ["s3"; "azure"; "both"; "all"].

(** The upload mode the loader works with. *)
Definition upload_mode_of (env : gmap string string) : string :=
  lower (getenv_default env "STORAGE_UPLOAD_MODE" "s3").

(** The documented enablement table: which providers each recognised mode
    switches on. *)
Definition documented_enablement (upload_mode : string) : option (list StorageProvider) :=
  if String.eqb upload_mode "s3" then Some [AWS_S3]
  else if String.eqb upload_mode "azure" then Some [AZURE_BLOB]
  else if String.eqb upload_mode "both" then Some [AWS_S3; AZURE_BLOB]
  else if String.eqb upload_mode "all" then Some [AWS_S3; AZURE_BLOB]
  else None.

Definition is_s3 (p : StorageProvider) : bool :=
  match p with AWS_S3 => true | AZURE_BLOB => false end.

(** The providers the loader consults the environment for. *)
Definition enabled_providers (AZURE_AVAILABLE : bool) (env : gmap string string)
  : list StorageProvider :=
  (if unified_storage_manager._should_use_aws env then [AWS_S3] else [])
  ++ (if unified_storage_manager._should_use_azure AZURE_AVAILABLE env
      then [AZURE_BLOB] else []).

(** [v] is present: it is set and not the empty string. *)
Definition present (v : option string) : Prop := exists s, v = Some s /\ s <> "".

(** Bucket, container and one way to authenticate are all configured. *)
Definition settings_complete (env : gmap string string) : bool :=
  truthy (getenv env "AWS_RECORDING_STORAGE_BUCKET_NAME")
  && truthy (getenv env "AZURE_STORAGE_CONTAINER_NAME")
  && (truthy (getenv env "AZURE_STORAGE_ACCOUNT_NAME")
      || truthy (getenv env "AZURE_STORAGE_CONNECTION_STRING")
      || truthy (getenv env "AZURE_STORAGE_ACCOUNT_KEY")).

(** The Blob config the loader builds from [env]. *)
Definition azure_config_of (env : gmap string string) : StorageConfig :=
  mkStorageConfig AZURE_BLOB
    (list_to_map
       [("container_name", getenv env "AZURE_STORAGE_CONTAINER_NAME");
        ("storage_account_name", getenv env "AZURE_STORAGE_ACCOUNT_NAME");
        ("connection_string", getenv env "AZURE_STORAGE_CONNECTION_STRING");
        ("account_key", getenv env "AZURE_STORAGE_ACCOUNT_KEY")]).

(** *** Blob authentication *)

Inductive AuthStrategy := ManagedIdentity | ConnectionString | SharedKey.

(** The priority among the three authentication inputs, as documented:
    managed identity when an account name is given and both connection
    string and account key are absent; otherwise connection string when one
    is provided; otherwise shared key when both account name and account key
    are given; otherwise none. *)
Definition strategy_by_priority
    (storage_account_name connection_string account_key : option string)
  : option AuthStrategy :=
  if truthy storage_account_name && negb (truthy connection_string)
       && negb (truthy account_key)
  then Some ManagedIdentity
  else if truthy connection_string then Some ConnectionString
  else if truthy storage_account_name && truthy account_key then Some SharedKey
  else None.

(** The client each strategy builds. *)
Definition client_for (s : AuthStrategy)
    (storage_account_name connection_string account_key : option string)
  : BlobServiceClient :=
  match s with
  | ManagedIdentity =>
      ClientForAccount (azure_file_uploader.account_url storage_account_name)
        DefaultAzureCredential
  | ConnectionString => ClientFromConnectionString (fmt connection_string)
  | SharedKey =>
      ClientForAccount (azure_file_uploader.account_url storage_account_name)
        (AccountKeyCredential (fmt account_key))
  end.

(** The line logged when a strategy is chosen. *)
Definition strategy_log (s : AuthStrategy) : event :=
  match s with
  | ManagedIdentity =>
      Log info "Using managed identity authentication for Azure Storage"
  | ConnectionString =>
      Log info "Using connection string authentication for Azure Storage"
  | SharedKey =>
      Log warning
        "Using account key authentication for Azure Storage - not recommended for production"
  end.

(** The SDK's verdict on building a client: the first of its constructors
    that raises. *)
Definition sdk_verdict (ext : Externals) (client : BlobServiceClient) : option exn :=
  match client with
  | ClientForAccount url DefaultAzureCredential =>
      match new_DefaultAzureCredential ext with
      | Some e => Some e
      | None => new_BlobServiceClient ext url DefaultAzureCredential
      end
  | ClientForAccount url credential => new_BlobServiceClient ext url credential
  | ClientFromConnectionString cs => from_connection_string ext cs
  end.

Definition no_auth_error : exn :=
  Exn ValueError
    "Must provide either storage_account_name (for managed identity), connection_string, or storage_account_name with account_key".

Definition import_error : exn :=
  Exn ImportError
    "Azure Storage SDK not installed. Install with: pip install azure-storage-blob azure-identity".

Definition init_failure_log (e : exn) : event :=
  Log error ("Failed to initialize Azure Blob Service Client: " +:+ exn_msg e).

(** Building the Blob uploader for [cfg] goes through. *)
Definition constructible (AZURE_AVAILABLE : bool) (ext : Externals)
    (cfg : StorageConfig) : bool :=
  AZURE_AVAILABLE
  && negb (is_s3 (provider cfg))
  && bool_decide (is_Some (config cfg !! "container_name"))
  && match strategy_by_priority
             (dict_get (config cfg) "storage_account_name")
             (dict_get (config cfg) "connection_string")
             (dict_get (config cfg) "account_key") with
     | Some s =>
         bool_decide
           (sdk_verdict ext
              (client_for s
                 (dict_get (config cfg) "storage_account_name")
                 (dict_get (config cfg) "connection_string")
                 (dict_get (config cfg) "account_key")) = None)
     | None => false
     end.

(** *** Background upload, waiting, URL *)

(** The upload of [file_path] by [u] goes through: the file exists and none
    of the calls it takes raises. *)
Definition upload_succeeds (ext : Externals) (u : AzureFileUploader)
    (file_path : string) : bool :=
  match path_exists ext file_path with
  | Ok true =>
      bool_decide (get_blob_client ext (blob_service_client u) (container_name u)
                     (blob_name u) = None)
      && bool_decide (open_rb ext file_path = None)
      && bool_decide (upload_blob ext (blob_service_client u) (container_name u)
                        (blob_name u) file_path = None)
  | _ => false
  end.

(** What waiting on the uploader at [r] raises, if anything. *)
Definition wait_verdict (ext : Externals) (st : State) (r : nat) : option exn :=
  match heap st !! r with
  | Some (S3Uploader _) => FileUploader_wait_for_upload ext r
  | Some (AzureUploader u) =>
      match _upload_thread u with
      | Some _ => if thread_is_alive ext r then thread_join ext r else None
      | None => None
      end
  | None => Some (Exn TypeError "no such object")
  end.

Definition wait_error_log (e : exn) : string :=
  "Error waiting for upload: " +:+ exn_msg e.

(** The URL [get_blob_url] gives for [u], when building it does not raise. *)
Definition url_of (ext : Externals) (u : AzureFileUploader) : option string :=
  match get_blob_client ext (blob_service_client u) (container_name u) (blob_name u) with
  | None => Some (blob_client_url ext (blob_service_client u) (container_name u) (blob_name u))
  | Some _ => None
  end.

(** *** Histories of a coordinator *)

(** The states a coordinator built from [env] for [file_key] goes through
    while its methods are called. *)
Inductive reachable (AZURE_AVAILABLE : bool) (ext : Externals)
    (env : gmap string string) (file_key : string) : State -> Prop :=
  | reachable_init :
      reachable AZURE_AVAILABLE ext env file_key
        (unified_storage_manager.__init__ AZURE_AVAILABLE env file_key)
  | reachable_upload_file st file_path callback :
      reachable AZURE_AVAILABLE ext env file_key st ->
      reachable AZURE_AVAILABLE ext env file_key
        (unified_storage_manager.upload_file AZURE_AVAILABLE ext file_path callback st).2
  | reachable_wait_for_uploads st :
      reachable AZURE_AVAILABLE ext env file_key st ->
      reachable AZURE_AVAILABLE ext env file_key
        (unified_storage_manager.wait_for_uploads ext st).2
  | reachable_get_azure_blob_url st :
      reachable AZURE_AVAILABLE ext env file_key st ->
      reachable AZURE_AVAILABLE ext env file_key
        (unified_storage_manager.get_azure_blob_url ext st).2.

(** The retained Blob uploader of [after] was created after [before]. *)
Definition fresh_azure (before after : State) : Prop :=
  exists r u,
    azure_uploader (self after) = Some r /\
    next_oid before <= r /\
    heap after !! r = Some (AzureUploader u) /\
    blob_name u = file_key (self after).

(** A Blob uploader was created between [before] and [after]. *)
Definition blob_uploader_created (before after : State) : Prop :=
  exists r u, next_oid before <= r /\ heap after !! r = Some (AzureUploader u).

(** What any number of upload attempts may change. *)
Definition extends (st st' : State) : Prop :=
  file_key (self st') = file_key (self st) /\
  storage_configs (self st') = storage_configs (self st) /\
  next_oid st <= next_oid st' /\
  (forall r, r < next_oid st -> heap st' !! r = heap st !! r) /\
  (heap_bounded st -> heap_bounded st') /\
  (exists new added,
     trace st' = trace st ++ new /\
     started new = added /\
     upload_threads (self st') = upload_threads (self st) ++ added) /\
  (azure_uploader (self st') = azure_uploader (self st) \/ fresh_azure st st') /\
  (heap_bounded st -> blob_uploader_created st st' -> fresh_azure st st').

(** What holds of a coordinator built from [env] for [file_key] throughout
    its life. *)
Definition coordinator_inv (AZURE_AVAILABLE : bool) (ext : Externals)
    (env : gmap string string) (fk : string) (st : State) : Prop :=
  heap_bounded st /\
  file_key (self st) = fk /\
  storage_configs (self st)
  = (unified_storage_manager._load_storage_configs AZURE_AVAILABLE env).1 /\
  upload_threads (self st) = started (trace st) /\
  (is_Some (azure_uploader (self st)) ->
   exists cfg, cfg ∈ storage_configs (self st)
               /\ constructible AZURE_AVAILABLE ext cfg = true).

(** ** Sample environments and worlds *)

Definition env_unrecognised : gmap string string :=
  list_to_map
    [("STORAGE_UPLOAD_MODE", "gcs");
     ("AWS_RECORDING_STORAGE_BUCKET_NAME", "recordings")].

Definition env_azure : gmap string string :=
  list_to_map
    [("STORAGE_UPLOAD_MODE", "Azure");
     ("AZURE_STORAGE_CONTAINER_NAME", "recordings");
     ("AZURE_STORAGE_ACCOUNT_NAME", "acct")].

Definition env_both : gmap string string :=
  list_to_map
    [("STORAGE_UPLOAD_MODE", "BOTH");
     ("AWS_RECORDING_STORAGE_BUCKET_NAME", "recordings");
     ("AZURE_STORAGE_CONTAINER_NAME", "recordings");
     ("AZURE_STORAGE_ACCOUNT_NAME", "acct")].

Definition s3_config_of_env_both : StorageConfig :=
  mkStorageConfig AWS_S3
    (list_to_map
       [("bucket", Some "recordings"); ("endpoint_url", None); ("region_name", None);
        ("access_key_id", None); ("secret_access_key", None)]).

Definition env_key_only : gmap string string :=
  list_to_map
    [("STORAGE_UPLOAD_MODE", "azure");
     ("AZURE_STORAGE_CONTAINER_NAME", "recordings");
     ("AZURE_STORAGE_ACCOUNT_KEY", "k")].

Definition env_both_key_only : gmap string string :=
  list_to_map
    [("STORAGE_UPLOAD_MODE", "both");
     ("AWS_RECORDING_STORAGE_BUCKET_NAME", "recordings");
     ("AZURE_STORAGE_CONTAINER_NAME", "recordings");
     ("AZURE_STORAGE_ACCOUNT_KEY", "k")].

(** A world in which the file exists and no external call raises. *)
Definition ext_ok : Externals :=
  mkExternals None (fun _ _ => None) (fun _ => None) (fun _ _ _ => None)
    (fun _ container blob =>
       "https://acct.blob.core.windows.net/" +:+ fmt container +:+ "/" +:+ blob)
    (fun _ _ _ _ => None) (fun _ => Ok true) (fun _ => None)
    (fun _ => None) (fun _ => true) (fun _ => None)
    (fun _ => None) (fun _ _ _ => None) (fun _ => None).

(** As [ext_ok], but constructing the S3 uploader raises. *)
Definition ext_s3_down : Externals :=
  mkExternals None (fun _ _ => None) (fun _ => None) (fun _ _ _ => None)
    (fun _ container blob =>
       "https://acct.blob.core.windows.net/" +:+ fmt container +:+ "/" +:+ blob)
    (fun _ _ _ _ => None) (fun _ => Ok true) (fun _ => None)
    (fun _ => None) (fun _ => true) (fun _ => None)
    (fun _ => Some (Exn ValueError "Invalid endpoint")) (fun _ _ _ => None)
    (fun _ => None).

(** As [ext_ok], but joining the thread of uploader 1 raises. *)
Definition ext_join_fails : Externals :=
  mkExternals None (fun _ _ => None) (fun _ => None) (fun _ _ _ => None)
    (fun _ container blob =>
       "https://acct.blob.core.windows.net/" +:+ fmt container +:+ "/" +:+ blob)
    (fun _ _ _ _ => None) (fun _ => Ok true) (fun _ => None)
    (fun _ => None) (fun _ => true)
    (fun r => if Nat.eqb r 1
              then Some (Exn RuntimeError "cannot join current thread") else None)
    (fun _ => None) (fun _ _ _ => None) (fun _ => None).

(** As [ext_ok], but the local file does not exist. *)
Definition ext_no_file : Externals :=
  mkExternals None (fun _ _ => None) (fun _ => None) (fun _ _ _ => None)
    (fun _ container blob =>
       "https://acct.blob.core.windows.net/" +:+ fmt container +:+ "/" +:+ blob)
    (fun _ _ _ _ => None) (fun _ => Ok false) (fun _ => None)
    (fun _ => None) (fun _ => true) (fun _ => None)
    (fun _ => None) (fun _ _ _ => None) (fun _ => None).

Definition sample_uploader : AzureFileUploader :=
  mkAzureFileUploader (Some "recordings") "rec.mp4" None
    (ClientForAccount "https://acct.blob.core.windows.net" DefaultAzureCredential).

(** ** azure_storage_settings.py *)

Module azure_storage_settings.
Section azure_storage_settings.

(** [os.environ] when the settings module is imported. *)
Variable env : gmap string string.

Definition AZURE_STORAGE_ACCOUNT_NAME : option string :=
  getenv env "AZURE_STORAGE_ACCOUNT_NAME".

Definition AZURE_STORAGE_CONTAINER_NAME : option string :=
  getenv env "AZURE_STORAGE_CONTAINER_NAME".

Definition AZURE_STORAGE_CONNECTION_STRING : option string :=
  getenv env "AZURE_STORAGE_CONNECTION_STRING".

Definition AZURE_STORAGE_ACCOUNT_KEY : option string :=
  getenv env "AZURE_STORAGE_ACCOUNT_KEY".

Definition STORAGE_UPLOAD_MODE : string :=
  getenv_default env "STORAGE_UPLOAD_MODE" "s3".

(** The dict [{"BACKEND": ..., "OPTIONS": {...}}]. *)
Record StorageBackend := mkStorageBackend {
  BACKEND : string;
  OPTIONS : gmap string (option string)
}.

(** [AZURE_STORAGE_BACKEND]; [None] when the name is left undefined. *)
Definition AZURE_STORAGE_BACKEND : option StorageBackend :=
  if truthy AZURE_STORAGE_ACCOUNT_NAME && truthy AZURE_STORAGE_CONTAINER_NAME then
    Some (mkStorageBackend "storages.backends.azure_storage.AzureStorage"
            (list_to_map
               [("account_name", AZURE_STORAGE_ACCOUNT_NAME);
                ("account_key", AZURE_STORAGE_ACCOUNT_KEY);
                ("azure_container", AZURE_STORAGE_CONTAINER_NAME);
                ("connection_string", AZURE_STORAGE_CONNECTION_STRING)]))
  else None.

End azure_storage_settings.
End azure_storage_settings.

(** ** Deleting the local file

    [AzureFileUploader.delete_file] and
    [UnifiedStorageManager.delete_local_file].  The local file system is the
    set of the paths that exist; a function returns its outcome, the file
    system it leaves and the lines it logs. *)

Module local_files.
Section local_files.

(** [Path.unlink()] raising, e.g. for lack of permission. *)
Variable unlink_raises : string -> option exn.
(** [FileUploader.delete_file] of file_uploader.py. *)
Variable FileUploader_delete_file :
  gset string -> string -> result unit * gset string * list event.

(** [AzureFileUploader.delete_file] *)
Definition delete_file (files : gset string) (file_path : string)
  : result unit * gset string * list event :=
  if bool_decide (file_path ∈ files) then
    match unlink_raises file_path with
    | Some e => (Raise e, files, [])
    | None =>
        (Ok tt, files ∖ {[file_path]},
         [Log info ("Deleted local file: " +:+ file_path)])
    end
  else (Ok tt, files, []).

(** [UnifiedStorageManager.delete_local_file] *)
Definition delete_local_file (st : State) (files : gset string) (file_path : string)
  : result unit * gset string * list event :=
  match upload_threads (self st) with
  | [] => (Ok tt, files, [])
  | uploader :: _ =>
      match heap st !! uploader with
      | Some (S3Uploader _) => FileUploader_delete_file files file_path
      | Some (AzureUploader _) => delete_file files file_path
      | None => (Raise (Exn TypeError "no such object"), files, [])
      end
  end.

End local_files.
End local_files.

(** [ext] with [Path.exists()] answering from the set of existing paths. *)
Definition with_files (ext : Externals) (files : gset string) : Externals :=
  mkExternals
    (new_DefaultAzureCredential ext) (new_BlobServiceClient ext)
    (from_connection_string ext) (get_blob_client ext) (blob_client_url ext)
    (upload_blob ext)
    (fun file_path => Ok (bool_decide (file_path ∈ files)))
    (open_rb ext) (thread_start ext) (thread_is_alive ext) (thread_join ext)
    (new_FileUploader ext) (FileUploader_upload_file ext)
    (FileUploader_wait_for_upload ext).

(** ** Further vocabulary *)


(** A start event carries the closure of its own provider. *)
Definition wired (ev : event) : Prop :=
  match ev with
  | S3UploadStart _ _ c => c = Some s3_callback
  | ThreadStart _ t => thread_callback t = Some azure_callback
  | _ => True
  end.

(** The lines logged, with their level. *)
Fixpoint logs (tr : list event) : list (logger_method * string) :=
  match tr with
  | [] => []
  | Log m msg :: tr' => (m, msg) :: logs tr'
  | _ :: tr' => logs tr'
  end.

(** The blobs written, as (container, blob, local path). *)
Fixpoint uploaded (tr : list event) : list (option string * string * string) :=
  match tr with
  | [] => []
  | UploadBlob container blob file_path :: tr' =>
      (container, blob, file_path) :: uploaded tr'
  | _ :: tr' => uploaded tr'
  end.

(** The S3 uploader built from [env] for [file_key]. *)
Definition s3_uploader_of (env : gmap string string) (file_key : string) : FileUploader :=
  mkFileUploader
    (getenv env "AWS_RECORDING_STORAGE_BUCKET_NAME") file_key
    (getenv env "AWS_ENDPOINT_URL") (getenv env "AWS_DEFAULT_REGION")
    (getenv env "AWS_ACCESS_KEY_ID") (getenv env "AWS_SECRET_ACCESS_KEY").

(** Every handle the coordinator keeps refers to an object of the heap; a
    Blob handle in [upload_threads] has its thread recorded. *)
Definition handles_allocated (st : State) : Prop :=
  (forall r, r ∈ upload_threads (self st) ->
     match heap st !! r with
     | Some (S3Uploader _) => True
     | Some (AzureUploader u) => is_Some (_upload_thread u)
     | None => False
     end) /\
  (forall r, azure_uploader (self st) = Some r ->
     exists u, heap st !! r = Some (AzureUploader u)).

(** What one attempt to start an upload leaves behind: nothing is reported
    by the attempt itself; when it returns, exactly the new uploader was
    started and recorded; when it raises, nothing was started or recorded. *)
Definition attempt_facts (before : State) (run : result unit * State) : Prop :=
  let after := run.2 in
  successful_uploads after = successful_uploads before /\
  failed_uploads after = failed_uploads before /\
  file_key (self after) = file_key (self before) /\
  storage_configs (self after) = storage_configs (self before) /\
  (heap_bounded before -> handles_allocated before ->
   heap_bounded after /\ handles_allocated after) /\
  exists new,
    trace after = trace before ++ new /\ callbacks new = [] /\ Forall wired new /\
    match run.1 with
    | Ok _ =>
        started new = [next_oid before] /\
        upload_threads (self after) = upload_threads (self before) ++ [next_oid before]
    | Raise _ =>
        started new = [] /\
        upload_threads (self after) = upload_threads (self before)
    end.

(** What the loop of [upload_file] leaves behind after going through
    [configs]: every config was either started or reported as failed. *)
Definition loop_facts (callback : option callable) (configs : list StorageConfig)
    (before after : State) : Prop :=
  successful_uploads after = successful_uploads before /\
  file_key (self after) = file_key (self before) /\
  storage_configs (self after) = storage_configs (self before) /\
  (heap_bounded before -> handles_allocated before ->
   heap_bounded after /\ handles_allocated after) /\
  exists new fails,
    trace after = trace before ++ new /\
    failed_uploads after = failed_uploads before ++ fails /\
    callbacks new
    = match callback with
      | Some _ => (fun name => (name, false)) <$> fails
      | None => []
      end /\
    Forall wired new /\
    length (started new) + length fails = length configs /\
    Forall (fun name => name ∈ (fun c => value (provider c)) <$> configs) fails /\
    upload_threads (self after) = upload_threads (self before) ++ started new.

(** The first error the upload of [file_path] by [u] runs into, if any. *)
Definition upload_error (ext : Externals) (u : AzureFileUploader)
    (file_path : string) : option exn :=
  match path_exists ext file_path with
  | Raise e => Some e
  | Ok false => Some (Exn FileNotFoundError ("File not found: " +:+ file_path))
  | Ok true =>
      match get_blob_client ext (blob_service_client u) (container_name u)
              (blob_name u) with
      | Some e => Some e
      | None =>
          match open_rb ext file_path with
          | Some e => Some e
          | None =>
              upload_blob ext (blob_service_client u) (container_name u)
                (blob_name u) file_path
          end
      end
  end.

(** The one line the worker logs. *)
Definition worker_log (AZURE_AVAILABLE : bool) (ext : Externals)
    (u : AzureFileUploader) (file_path : string) : logger_method * string :=
  match upload_error ext u file_path with
  | None =>
      (info, "Successfully uploaded " +:+ file_path +:+ " to Azure blob: "
               +:+ azure_file_uploader.blob_path u)
  | Some e =>
      (error,
       (if azure_file_uploader.is_AzureError AZURE_AVAILABLE e
        then "Azure Storage upload error: " else "Upload error: ") +:+ exn_msg e)
  end.

(** The S3 config the loader builds from [env]. *)
Definition aws_config_of (env : gmap string string) : StorageConfig :=
  mkStorageConfig AWS_S3
    (list_to_map
       [("bucket", getenv env "AWS_RECORDING_STORAGE_BUCKET_NAME");
        ("endpoint_url", getenv env "AWS_ENDPOINT_URL");
        ("region_name", getenv env "AWS_DEFAULT_REGION");
        ("access_key_id", getenv env "AWS_ACCESS_KEY_ID");
        ("secret_access_key", getenv env "AWS_SECRET_ACCESS_KEY")]).

(** ** Completion reports

    An uploader that calls the callback it was given runs the closure the
    coordinator built for it: [run_callable]. *)






(** * Properties *)

Import unified_storage_manager.

(** ** Configuration loader *)

Section loader_facts.
Variable AZURE_AVAILABLE : bool.
Variable env : gmap string string.

Lemma get_aws_config_inv d w :
  _get_aws_config env = (Some d, w) ->
  truthy (getenv env "AWS_RECORDING_STORAGE_BUCKET_NAME") = true /\
  dict_get d "bucket" = getenv env "AWS_RECORDING_STORAGE_BUCKET_NAME".
Proof.
  unfold _get_aws_config.
  destruct (truthy (getenv env "AWS_RECORDING_STORAGE_BUCKET_NAME")) eqn:Hb;
    simpl; intros H; [|discriminate].
  injection H as <- _. split; [reflexivity|]. reflexivity.
Qed.

Lemma azure_config_lookups (container account connection key : option string) :
  let d : gmap string (option string) :=
    list_to_map
      [("container_name", container); ("storage_account_name", account);
       ("connection_string", connection); ("account_key", key)] in
  dict_get d "container_name" = container /\
  dict_get d "storage_account_name" = account /\
  dict_get d "connection_string" = connection /\
  dict_get d "account_key" = key.
Proof. repeat split; reflexivity. Qed.

Lemma get_azure_config_inv d w :
  _get_azure_config env = (Some d, w) ->
  truthy (getenv env "AZURE_STORAGE_CONTAINER_NAME") = true /\
  (truthy (getenv env "AZURE_STORAGE_ACCOUNT_NAME")
   || truthy (getenv env "AZURE_STORAGE_CONNECTION_STRING")
   || truthy (getenv env "AZURE_STORAGE_ACCOUNT_KEY")) = true /\
  dict_get d "container_name" = getenv env "AZURE_STORAGE_CONTAINER_NAME" /\
  dict_get d "storage_account_name" = getenv env "AZURE_STORAGE_ACCOUNT_NAME" /\
  dict_get d "connection_string" = getenv env "AZURE_STORAGE_CONNECTION_STRING" /\
  dict_get d "account_key" = getenv env "AZURE_STORAGE_ACCOUNT_KEY".
Proof.
  unfold _get_azure_config.
  destruct (azure_config_lookups
              (getenv env "AZURE_STORAGE_CONTAINER_NAME")
              (getenv env "AZURE_STORAGE_ACCOUNT_NAME")
              (getenv env "AZURE_STORAGE_CONNECTION_STRING")
              (getenv env "AZURE_STORAGE_ACCOUNT_KEY")) as (Hc & Ha & Hs & Hk).
  cbv zeta in *. rewrite Ha, Hs, Hk.
  destruct (truthy (getenv env "AZURE_STORAGE_CONTAINER_NAME")); [|discriminate].
  destruct (truthy (getenv env "AZURE_STORAGE_ACCOUNT_NAME")
            || truthy (getenv env "AZURE_STORAGE_CONNECTION_STRING")
            || truthy (getenv env "AZURE_STORAGE_ACCOUNT_KEY")); [|discriminate].
  cbn [negb]. intros [= <- _]. repeat split; assumption.
Qed.

Lemma elem_of_append_if c configs p d :
  c ∈ append_if configs p d ->
  c ∈ configs \/ exists m, d = Some m /\ c = mkStorageConfig p m.
Proof.
  unfold append_if. destruct d as [m|]; [|by left].
  case_bool_decide; [by left|].
  rewrite elem_of_app, list_elem_of_singleton. intros [?| ->]; eauto.
Qed.

(** What the loader returns: at most one S3 config followed by at most one
    Blob config, each built by its [_get_*_config]. *)
Lemma elem_of_load_storage_configs c :
  c ∈ (_load_storage_configs AZURE_AVAILABLE env).1 ->
  validate c = true /\
  ((_should_use_aws env = true /\
    exists d w, _get_aws_config env = (Some d, w) /\ c = mkStorageConfig AWS_S3 d) \/
   (_should_use_azure AZURE_AVAILABLE env = true /\
    exists d w, _get_azure_config env = (Some d, w) /\ c = mkStorageConfig AZURE_BLOB d)).
Proof.
  unfold _load_storage_configs.
  destruct (_should_use_aws env) eqn:Haws;
    destruct (_should_use_azure AZURE_AVAILABLE env) eqn:Haz;
    destruct (_get_aws_config env) as [s3 w1] eqn:Hs3;
    destruct (_get_azure_config env) as [az w2] eqn:Hazc; cbn [fst].
  all: rewrite list_elem_of_In, filter_In, <- list_elem_of_In.
  all: intros [Hin Hv]; (split; [exact Hv|]).
  all: repeat (apply elem_of_append_if in Hin as [Hin|(m & -> & ->)]).
  all: try (by apply elem_of_nil in Hin); eauto 8.
Qed.

End loader_facts.

Lemma truthy_present v : truthy v = true <-> present v.
Proof.
  unfold present. destruct v as [s|]; simpl.
  - rewrite negb_true_iff, String.eqb_neq. split.
    + intros H. exists s. auto.
    + intros (s' & [= <-] & H). exact H.
  - split; [discriminate|]. intros (s & H & _). discriminate.
Qed.

(** C1 (amended).  A selector that is set to a value outside s3, azure,
    both, all (compared after lowering) switches every provider off: neither
    S3 nor Blob is enabled and the loader returns no config at all. *)
Theorem unrecognised_mode_enables_nothing
    (AZURE_AVAILABLE : bool) (env : gmap string string) (mode : string) :
  getenv env "STORAGE_UPLOAD_MODE" = Some mode ->
  lower mode ∉ recognised_modes ->
  _should_use_aws env = false /\
  _should_use_azure AZURE_AVAILABLE env = false /\
  (_load_storage_configs AZURE_AVAILABLE env).1 = [].
Proof.
  intros Hmode Hnot.
  assert (Haws : _should_use_aws env = false).
  { unfold _should_use_aws, getenv_default. rewrite Hmode. simpl.
    apply bool_decide_eq_false. intros Hin. apply Hnot.
    unfold recognised_modes. rewrite !elem_of_cons in *. tauto. }
  assert (Haz : _should_use_azure AZURE_AVAILABLE env = false).
  { unfold _should_use_azure, getenv_default. rewrite Hmode. simpl.
    apply andb_false_iff. left.
    apply bool_decide_eq_false. intros Hin. apply Hnot.
    unfold recognised_modes. rewrite !elem_of_cons in *. tauto. }
  repeat split; try assumption.
  unfold _load_storage_configs. rewrite Haws, Haz. reflexivity.
Qed.

Lemma unrecognised_mode_enables_nothing_witness :
  _should_use_aws env_unrecognised = false /\
  _should_use_azure true env_unrecognised = false /\
  (_load_storage_configs true env_unrecognised).1 = [].
Proof.
  apply (unrecognised_mode_enables_nothing true env_unrecognised "gcs").
  - reflexivity.
  - compute_done.
Defined.

(** C1 as stated fails: with the selector set to gcs the S3 provider is
    not enabled, although a bucket is configured. *)
Lemma unrecognised_mode_not_s3_only :
  getenv env_unrecognised "STORAGE_UPLOAD_MODE" = Some "gcs" /\
  (lower "gcs" ∉ recognised_modes) /\
  ¬ (_should_use_aws env_unrecognised = true /\
     _should_use_azure true env_unrecognised = false).
Proof.
  split; [reflexivity|]. split.
  - compute_done.
  - intros [H _]. vm_compute in H. discriminate.
Qed.

Lemma aws_config_lookup (bucket endpoint region key_id secret : option string) :
  dict_get
    (list_to_map
       [("bucket", bucket); ("endpoint_url", endpoint); ("region_name", region);
        ("access_key_id", key_id); ("secret_access_key", secret)])
    "bucket" = bucket.
Proof. reflexivity. Qed.

Lemma append_if_nonempty configs p (kv : string * option string) l :
  append_if configs p (Some (list_to_map (kv :: l)))
  = configs ++ [mkStorageConfig p (list_to_map (kv :: l))].
Proof.
  unfold append_if. rewrite bool_decide_eq_false_2; [reflexivity|].
  destruct kv. cbn [list_to_map foldr uncurry]. apply insert_non_empty.
Qed.

Lemma load_storage_configs_complete (AZURE_AVAILABLE : bool) (env : gmap string string) :
  settings_complete env = true ->
  provider <$> (_load_storage_configs AZURE_AVAILABLE env).1
  = enabled_providers AZURE_AVAILABLE env.
Proof.
  unfold settings_complete. rewrite !andb_true_iff. intros [[Hb Hc] Ha].
  unfold _load_storage_configs, enabled_providers, _get_aws_config, _get_azure_config.
  destruct (azure_config_lookups
              (getenv env "AZURE_STORAGE_CONTAINER_NAME")
              (getenv env "AZURE_STORAGE_ACCOUNT_NAME")
              (getenv env "AZURE_STORAGE_CONNECTION_STRING")
              (getenv env "AZURE_STORAGE_ACCOUNT_KEY")) as (Hc' & Ha' & Hs' & Hk').
  cbv zeta in *. rewrite Ha', Hs', Hk', Hb, Hc, Ha. cbn [negb].
  destruct (_should_use_aws env), (_should_use_azure AZURE_AVAILABLE env);
    rewrite ?append_if_nonempty; cbn [fst app List.filter validate provider config];
    rewrite ?aws_config_lookup, ?Hc', ?Hb, ?Hc; reflexivity.
Qed.

Lemma documented_enablement_inv mode ps :
  documented_enablement mode = Some ps ->
  (mode = "s3" /\ ps = [AWS_S3]) \/ (mode = "azure" /\ ps = [AZURE_BLOB]) \/
  ((mode = "both" \/ mode = "all") /\ ps = [AWS_S3; AZURE_BLOB]).
Proof.
  unfold documented_enablement.
  destruct (String.eqb_spec mode "s3"); [intros [= <-]; auto|].
  destruct (String.eqb_spec mode "azure"); [intros [= <-]; auto|].
  destruct (String.eqb_spec mode "both"); [intros [= <-]; auto|].
  destruct (String.eqb_spec mode "all"); [intros [= <-]; auto|].
  discriminate.
Qed.

(** C2 (amended).  For every upload mode in s3, azure, both, all (compared
    after lowering, s3 when the selector is absent) the enabled providers are
    the documented ones when the Azure SDK could be imported; when it could
    not, the Blob provider is left out of them.  With bucket, container and
    an authentication method configured, the providers of the returned
    configs are exactly the enabled ones. *)
Theorem enablement_table_behind_sdk_gate
    (AZURE_AVAILABLE : bool) (env : gmap string string) (ps : list StorageProvider) :
  documented_enablement (upload_mode_of env) = Some ps ->
  enabled_providers AZURE_AVAILABLE env
  = (if AZURE_AVAILABLE then ps else List.filter is_s3 ps) /\
  (settings_complete env = true ->
   provider <$> (_load_storage_configs AZURE_AVAILABLE env).1
   = (if AZURE_AVAILABLE then ps else List.filter is_s3 ps)).
Proof.
  intros Htable.
  assert (H : enabled_providers AZURE_AVAILABLE env
              = (if AZURE_AVAILABLE then ps else List.filter is_s3 ps)).
  { apply documented_enablement_inv in Htable.
    unfold enabled_providers, _should_use_aws, _should_use_azure.
    fold (upload_mode_of env).
    destruct Htable as [[-> ->]|[[-> ->]|[[-> | ->] ->]]];
      destruct AZURE_AVAILABLE; reflexivity. }
  split; [exact H|].
  intros Hc. rewrite <- H. by apply load_storage_configs_complete.
Qed.

Lemma enablement_table_behind_sdk_gate_witness :
  enabled_providers true env_both = [AWS_S3; AZURE_BLOB] /\
  provider <$> (_load_storage_configs true env_both).1 = [AWS_S3; AZURE_BLOB].
Proof.
  destruct (enablement_table_behind_sdk_gate true env_both [AWS_S3; AZURE_BLOB])
    as [Henabled Hloaded].
  - reflexivity.
  - split; [exact Henabled|]. apply Hloaded. reflexivity.
Defined.

(** The selector defaults to s3. *)
Lemma upload_mode_default (env : gmap string string) :
  getenv env "STORAGE_UPLOAD_MODE" = None -> upload_mode_of env = "s3".
Proof. unfold upload_mode_of, getenv_default. by intros ->. Qed.

(** C2 as stated fails: in mode azure, when the SDK import failed, the
    Blob provider is not enabled. *)
Lemma azure_mode_without_sdk :
  documented_enablement (upload_mode_of env_azure) = Some [AZURE_BLOB] /\
  enabled_providers false env_azure = [].
Proof. split; reflexivity. Qed.

(** C3.  Whatever the environment, a config the loader returns passes
    [validate]; an S3 config comes with a present bucket name, a Blob config
    with a present container name and at least one present value among the
    storage-account name, the connection string and the account key. *)
Theorem loaded_configs_are_valid
    (AZURE_AVAILABLE : bool) (env : gmap string string) (c : StorageConfig) :
  c ∈ (_load_storage_configs AZURE_AVAILABLE env).1 ->
  validate c = true /\
  match provider c with
  | AWS_S3 =>
      present (getenv env "AWS_RECORDING_STORAGE_BUCKET_NAME") /\
      dict_get (config c) "bucket" = getenv env "AWS_RECORDING_STORAGE_BUCKET_NAME"
  | AZURE_BLOB =>
      present (getenv env "AZURE_STORAGE_CONTAINER_NAME") /\
      dict_get (config c) "container_name" = getenv env "AZURE_STORAGE_CONTAINER_NAME" /\
      (present (getenv env "AZURE_STORAGE_ACCOUNT_NAME") \/
       present (getenv env "AZURE_STORAGE_CONNECTION_STRING") \/
       present (getenv env "AZURE_STORAGE_ACCOUNT_KEY"))
  end.
Proof.
  intros Hin. apply elem_of_load_storage_configs in Hin as [Hv Hc].
  split; [exact Hv|].
  destruct Hc as [[_ (d & w & Hget & ->)]|[_ (d & w & Hget & ->)]]; cbn [provider config].
  - apply get_aws_config_inv in Hget as [Hb Hd].
    split; [by apply truthy_present | exact Hd].
  - apply get_azure_config_inv in Hget as (Hc & Ha & Hd & _).
    split; [by apply truthy_present|]. split; [exact Hd|].
    rewrite <- !truthy_present.
    apply orb_true_iff in Ha as [Ha|Ha]; [apply orb_true_iff in Ha as [Ha|Ha]|]; auto.
Qed.

Lemma loaded_configs_are_valid_witness :
  validate s3_config_of_env_both = true /\
  present (getenv env_both "AWS_RECORDING_STORAGE_BUCKET_NAME") /\
  dict_get (config s3_config_of_env_both) "bucket"
  = getenv env_both "AWS_RECORDING_STORAGE_BUCKET_NAME".
Proof.
  apply (loaded_configs_are_valid true env_both s3_config_of_env_both).
  vm_compute. left.
Defined.

(** ** Reading traces *)

Lemma started_app tr1 tr2 : started (tr1 ++ tr2) = started tr1 ++ started tr2.
Proof.
  induction tr1 as [|ev tr1 IH]; [reflexivity|].
  destruct ev; cbn; by rewrite ?IH.
Qed.

Lemma callbacks_app tr1 tr2 : callbacks (tr1 ++ tr2) = callbacks tr1 ++ callbacks tr2.
Proof.
  induction tr1 as [|ev tr1 IH]; [reflexivity|].
  destruct ev; cbn; by rewrite ?IH.
Qed.

Lemma uploader_callbacks_app tr1 tr2 :
  uploader_callbacks (tr1 ++ tr2) = uploader_callbacks tr1 ++ uploader_callbacks tr2.
Proof.
  induction tr1 as [|ev tr1 IH]; [reflexivity|].
  destruct ev; cbn; by rewrite ?IH.
Qed.

Lemma waited_app tr1 tr2 : waited (tr1 ++ tr2) = waited tr1 ++ waited tr2.
Proof.
  induction tr1 as [|ev tr1 IH]; [reflexivity|].
  destruct ev; cbn; by rewrite ?IH.
Qed.

(** ** Blob uploader *)

Section uploader_facts.
Variable AZURE_AVAILABLE : bool.
Variable ext : Externals.

Lemma state_eta st : with_trace st (trace st) = st.
Proof. by destruct st. Qed.

(** The priority, spelled out over the eight combinations. *)
Lemma strategy_by_priority_table
    (storage_account_name connection_string account_key : option string) :
  strategy_by_priority storage_account_name connection_string account_key
  = match truthy storage_account_name, truthy connection_string, truthy account_key with
    | true, false, false => Some ManagedIdentity
    | _, true, _ => Some ConnectionString
    | true, false, true => Some SharedKey
    | false, false, _ => None
    end.
Proof.
  unfold strategy_by_priority.
  by destruct (truthy storage_account_name), (truthy connection_string),
    (truthy account_key).
Qed.

Lemma initialize_blob_service_client_run
    (storage_account_name connection_string account_key : option string)
    (st : State) :
  azure_file_uploader._initialize_blob_service_client ext
    storage_account_name connection_string account_key st
  = match strategy_by_priority storage_account_name connection_string account_key with
    | Some s =>
        let client := client_for s storage_account_name connection_string account_key in
        match sdk_verdict ext client with
        | None => (Ok client, with_trace st (trace st ++ [strategy_log s]))
        | Some e =>
            (Raise e,
             with_trace st (trace st ++ [strategy_log s; init_failure_log e]))
        end
    | None =>
        (Raise no_auth_error,
         with_trace st (trace st ++ [init_failure_log no_auth_error]))
    end.
Proof.
  unfold azure_file_uploader._initialize_blob_service_client,
    strategy_by_priority, try_except.
  destruct (truthy storage_account_name), (truthy connection_string),
    (truthy account_key); cbn [andb negb client_for sdk_verdict strategy_log];
    unfold mbind, M_bind, logger, emit, modify, call, raise, mret, M_ret,
      with_trace; cbn;
    repeat match goal with
      | |- context [new_DefaultAzureCredential ext] =>
          destruct (new_DefaultAzureCredential ext); cbn
      | |- context [new_BlobServiceClient ext ?u ?c] =>
          destruct (new_BlobServiceClient ext u c); cbn
      | |- context [from_connection_string ext ?c] =>
          destruct (from_connection_string ext c); cbn
      end;
    rewrite <- ?app_assoc; reflexivity.
Qed.

(** The constructor, case by case. *)
Lemma azure_file_uploader_init_run
    (container : option string) (blob : string)
    (storage_account_name connection_string account_key : option string)
    (st : State) :
  azure_file_uploader.__init__ AZURE_AVAILABLE ext container blob
    storage_account_name connection_string account_key st
  = if AZURE_AVAILABLE then
      match strategy_by_priority storage_account_name connection_string account_key with
      | Some s =>
          let client := client_for s storage_account_name connection_string account_key in
          match sdk_verdict ext client with
          | None =>
              (Ok (next_oid st),
               with_object st
                 (AzureUploader (mkAzureFileUploader container blob None client))
                 (trace st ++ [strategy_log s]))
          | Some e =>
              (Raise e,
               with_trace st (trace st ++ [strategy_log s; init_failure_log e]))
          end
      | None =>
          (Raise no_auth_error,
           with_trace st (trace st ++ [init_failure_log no_auth_error]))
      end
    else (Raise import_error, st).
Proof.
  unfold azure_file_uploader.__init__.
  destruct AZURE_AVAILABLE; cbn [negb]; [|reflexivity].
  unfold mbind, M_bind. rewrite initialize_blob_service_client_run.
  destruct (strategy_by_priority _ _ _) as [s|]; [|reflexivity].
  cbv zeta. destruct (sdk_verdict ext _); reflexivity.
Qed.

(** C7.  For every combination of the three authentication inputs the
    client initialisation follows the documented priority: it logs the
    chosen strategy and builds that strategy's client (returning it, or
    logging and re-raising the SDK's error); when no strategy applies it
    logs and raises the configuration error.  The constructor, which stops
    on an ImportError when the SDK is missing, allocates the uploader
    exactly when a client was built, and no background upload is started
    on the way. *)
Theorem authentication_strategy_priority
    (container : option string) (blob : string)
    (storage_account_name connection_string account_key : option string)
    (st : State) :
  let init :=
    azure_file_uploader._initialize_blob_service_client ext
      storage_account_name connection_string account_key st in
  let new :=
    azure_file_uploader.__init__ AZURE_AVAILABLE ext container blob
      storage_account_name connection_string account_key st in
  init
  = match strategy_by_priority storage_account_name connection_string account_key with
    | Some s =>
        let client := client_for s storage_account_name connection_string account_key in
        match sdk_verdict ext client with
        | None => (Ok client, with_trace st (trace st ++ [strategy_log s]))
        | Some e =>
            (Raise e,
             with_trace st (trace st ++ [strategy_log s; init_failure_log e]))
        end
    | None =>
        (Raise no_auth_error,
         with_trace st (trace st ++ [init_failure_log no_auth_error]))
    end /\
  new.1
  = (if AZURE_AVAILABLE then
       match init.1 with
       | Ok _ => Ok (next_oid st)
       | Raise e => Raise e
       end
     else Raise import_error) /\
  started (trace new.2) = started (trace st).
Proof.
  cbv zeta. split; [apply initialize_blob_service_client_run|].
  rewrite azure_file_uploader_init_run, initialize_blob_service_client_run.
  destruct AZURE_AVAILABLE; [|split; reflexivity].
  destruct (strategy_by_priority _ _ _) as [s|]; cbv zeta;
    [destruct (sdk_verdict ext _); destruct s|];
    cbn [fst snd with_object with_trace trace];
    (split; [reflexivity|]); rewrite started_app; cbn; apply app_nil_r.
Qed.


Lemma missing_file_is_a_failure (u : AzureFileUploader) (file_path : string) :
  path_exists ext file_path = Ok false -> upload_succeeds ext u file_path = false.
Proof. unfold upload_succeeds. by intros ->. Qed.

End uploader_facts.

(** ** Coordinator *)

Section coordinator_facts.
Variable AZURE_AVAILABLE : bool.
Variable ext : Externals.

Ltac run :=
  unfold mbind, M_bind, mret, M_ret, lift, call, raise, logger, emit, modify,
    set_self, store, alloc, get_state, deref_azure, try_except in *;
  cbn [fst snd self heap next_oid successful_uploads failed_uploads trace
       file_key storage_configs upload_threads azure_uploader] in *.

Lemma nothing_created st st' :
  heap st' = heap st -> heap_bounded st -> ¬ blob_uploader_created st st'.
Proof.
  intros Hh Hb (r & u & Hr & Hlook). rewrite Hh, Hb in Hlook by done. discriminate.
Qed.

Lemma extends_refl st : extends st st.
Proof.
  unfold extends. repeat split; auto.
  - exists [], []. rewrite !app_nil_r. auto.
  - intros Hb Hc. by apply nothing_created in Hc.
Qed.

Lemma upload_callback_run callback name success st :
  exists st',
    upload_callback callback name success st = (Ok tt, st') /\
    self st' = self st /\ heap st' = heap st /\ next_oid st' = next_oid st /\
    exists new, trace st' = trace st ++ new /\ started new = [] /\
      callbacks new = match callback with Some _ => [(name, success)] | None => [] end.
Proof.
  unfold upload_callback. destruct success, callback; run;
    eexists; (split; [reflexivity|]); cbn; repeat split;
    rewrite <- ?app_assoc; eexists; split; try reflexivity; split; reflexivity.
Qed.

Lemma upload_to_s3_extends cfg file_path st :
  let st' := (_upload_to_s3 ext cfg file_path st).2 in
  extends st st' /\ azure_uploader (self st') = azure_uploader (self st).
Proof.
  unfold _upload_to_s3, dict_getitem. run.
  destruct (config cfg !! "bucket") as [bucket|]; cbn;
    [|split; [apply extends_refl|reflexivity]].
  destruct (new_FileUploader ext _); cbn; [split; [apply extends_refl|reflexivity]|].
  assert (Hnot : forall tr m o,
            heap_bounded st ->
            ¬ blob_uploader_created st
                (mkState m (<[next_oid st := S3Uploader o]> (heap st))
                   (S (next_oid st)) (successful_uploads st) (failed_uploads st) tr)).
  { intros tr m o Hb (r & u & Hr & Hlook). cbn in Hlook.
    destruct (decide (r = next_oid st)) as [->|Hne].
    - rewrite lookup_insert_eq in Hlook. discriminate.
    - rewrite lookup_insert_ne, Hb in Hlook by done. discriminate. }
  destruct (FileUploader_upload_file ext _ _ _); cbn.
  - repeat split; cbn; auto.
    + intros r Hr. apply lookup_insert_ne. lia.
    + intros Hb r Hr. cbn in *. rewrite lookup_insert_ne by lia. apply Hb. lia.
    + exists [], []. rewrite !app_nil_r. auto.
    + intros Hb Hc. by apply Hnot in Hc.
  - repeat split; cbn; auto.
    + intros r Hr. apply lookup_insert_ne. lia.
    + intros Hb r Hr. cbn in *. rewrite lookup_insert_ne by lia. apply Hb. lia.
    + eexists [_], _. repeat split; reflexivity.
    + intros Hb Hc. by apply Hnot in Hc.
Qed.

Lemma upload_to_azure_extends cfg file_path st :
  provider cfg = AZURE_BLOB ->
  let st' := (_upload_to_azure AZURE_AVAILABLE ext cfg file_path st).2 in
  extends st st' /\
  (if constructible AZURE_AVAILABLE ext cfg
   then fresh_azure st st'
   else azure_uploader (self st') = azure_uploader (self st)).
Proof.
  intros Hp. unfold constructible. rewrite Hp. cbn [is_s3 negb].
  unfold _upload_to_azure, dict_getitem. run.
  destruct (config cfg !! "container_name") as [container|]; cbn;
    [|rewrite andb_false_r; split; [apply extends_refl|reflexivity]].
  rewrite azure_file_uploader_init_run.
  destruct AZURE_AVAILABLE; cbn [andb];
    [|split; [apply extends_refl|reflexivity]].
  destruct (strategy_by_priority _ _ _) as [s|]; cbv zeta.
  2: { cbn. split; [|reflexivity]. repeat split; cbn; auto.
       - eexists [_], []. rewrite app_nil_r. repeat split; reflexivity.
       - intros Hb Hc. by apply nothing_created in Hc. }
  destruct (sdk_verdict ext _) as [e|]; cbn.
  { split; [|reflexivity]. repeat split; cbn; auto.
    - eexists [_; _], []. rewrite app_nil_r. repeat split; try reflexivity.
      by destruct s.
    - intros Hb Hc. by apply nothing_created in Hc. }
  unfold azure_file_uploader.upload_file. run.
  rewrite lookup_insert_eq. cbn.
  destruct (thread_start ext _) as [e|]; cbn.
  - split.
    + repeat split; cbn; auto.
      * intros r Hr. rewrite !lookup_insert_ne by lia. reflexivity.
      * intros Hb r Hr. cbn in *. rewrite !lookup_insert_ne by lia. apply Hb. lia.
      * eexists [_], []. rewrite app_nil_r. repeat split; try reflexivity.
        by destruct s.
      * right. eexists _, _. cbn. repeat split; [lia|apply lookup_insert_eq|reflexivity].
      * intros _ _.
        eexists _, _. cbn. repeat split; [lia|apply lookup_insert_eq|reflexivity].
    + eexists _, _. cbn. repeat split; [lia|apply lookup_insert_eq|reflexivity].
  - split.
    + repeat split; cbn; auto.
      * intros r Hr. rewrite !lookup_insert_ne by lia. reflexivity.
      * intros Hb r Hr. cbn in *. rewrite !lookup_insert_ne by lia. apply Hb. lia.
      * eexists [_; _], [_]. rewrite <- app_assoc. repeat split; try reflexivity.
        by destruct s.
      * right. eexists _, _. cbn. repeat split; [lia|apply lookup_insert_eq|reflexivity].
      * intros _ _.
        eexists _, _. cbn. repeat split; [lia|apply lookup_insert_eq|reflexivity].
    + eexists _, _. cbn. repeat split; [lia|apply lookup_insert_eq|reflexivity].
Qed.

Lemma heap_bounded_lt st r o :
  heap_bounded st -> heap st !! r = Some o -> r < next_oid st.
Proof.
  intros Hb Hr. destruct (decide (r < next_oid st)) as [|Hge]; [done|].
  rewrite Hb in Hr by lia. discriminate.
Qed.

Lemma fresh_azure_extends st0 st1 st2 :
  heap_bounded st1 -> next_oid st0 <= next_oid st1 ->
  fresh_azure st0 st1 -> extends st1 st2 -> fresh_azure st0 st2.
Proof.
  intros Hb Hle (r & u & Haz & Hr & Hh & Hn) (Hfk & _ & Hle' & Hheap & _ & _ & Hor & _).
  destruct Hor as [Hsame|(r' & u' & Haz' & Hr' & Hh' & Hn')].
  - exists r, u. rewrite Hsame, Hfk. repeat split; auto.
    rewrite Hheap; [done|]. by eapply heap_bounded_lt.
  - exists r', u'. repeat split; auto. lia.
Qed.

Lemma extends_trans st0 st1 st2 :
  heap_bounded st0 -> extends st0 st1 -> extends st1 st2 -> extends st0 st2.
Proof.
  intros Hb0 H01 H12.
  pose proof H01 as (Hfk & Hcf & Hle & Hheap & Hb & (new & added & Htr & Hst & Hth) & Hor & Hcr).
  pose proof H12 as (Hfk' & Hcf' & Hle' & Hheap' & Hb' & (new' & added' & Htr' & Hst' & Hth') & Hor' & Hcr').
  unfold extends. repeat split.
  - congruence.
  - congruence.
  - lia.
  - intros r Hr. rewrite Hheap' by lia. by apply Hheap.
  - auto.
  - exists (new ++ new'), (added ++ added').
    rewrite Htr', Htr, Hth', Hth, started_app, Hst, Hst', !app_assoc. done.
  - destruct Hor as [Hsame|Hfresh].
    + destruct Hor' as [Hsame'|(r' & u' & Haz' & Hr' & Hh' & Hn')].
      * left. congruence.
      * right. exists r', u'. repeat split; auto. lia.
    + right. apply (fresh_azure_extends st0 st1 st2); auto.
  - intros _ (r & u & Hr & Hlook).
    destruct (decide (r < next_oid st1)) as [Hlt|Hge].
    + apply (fresh_azure_extends st0 st1 st2); auto.
      apply Hcr; [done|]. exists r, u. split; [done|]. by rewrite <- Hheap'.
    + destruct (Hcr' (Hb Hb0)) as (r' & u' & ? & ? & ? & ?).
      { exists r, u. split; [lia|done]. }
      exists r', u'. repeat split; auto. lia.
Qed.

(** A step that only appends events that start nothing. *)
Lemma extends_quiet st st' :
  self st' = self st -> heap st' = heap st -> next_oid st' = next_oid st ->
  (exists new, trace st' = trace st ++ new /\ started new = []) ->
  extends st st'.
Proof.
  intros Hs Hh Hn (new & Htr & Hst). unfold extends.
  rewrite Hs, Hh, Hn. repeat split; auto.
  - unfold heap_bounded. by rewrite Hh, Hn.
  - exists new, []. rewrite app_nil_r. done.
  - intros Hb Hc. by apply nothing_created in Hc.
Qed.

(** One iteration of the loop of [upload_file]. *)
Lemma upload_iteration cfg file_path callback st :
  heap_bounded st ->
  exists st',
    upload_loop AZURE_AVAILABLE ext [cfg] file_path callback st = (Ok tt, st') /\
    extends st st' /\
    (if constructible AZURE_AVAILABLE ext cfg
     then fresh_azure st st'
     else azure_uploader (self st') = azure_uploader (self st)).
Proof.
  intros Hb. cbn [upload_loop].
  unfold mbind at 1. unfold M_bind, try_except.
  destruct (provider cfg) eqn:Hp.
  - pose proof (upload_to_s3_extends cfg file_path st) as [Hext Haz].
    cbv zeta in *. unfold constructible. rewrite Hp. cbn [is_s3 negb].
    rewrite andb_false_r. cbn [andb].
    destruct (_upload_to_s3 ext cfg file_path st) as [[[]|e] st1]; cbn [snd] in *.
    { eexists. split; [reflexivity|]. auto. }
    unfold mbind, M_bind. run.
    destruct (upload_callback_run callback (value AWS_S3) false
                (with_trace st1 (trace st1 ++
                   [Log exception ("Error starting upload to " +:+ value AWS_S3
                                     +:+ ": " +:+ exn_msg e)])))
      as (st2 & Hrun & Hs & Hh & Hn & new & Htr & Hst & _).
    unfold with_trace in Hrun. rewrite Hrun. cbn.
    eexists. split; [reflexivity|]. cbn in *. split; [|congruence].
    eapply extends_trans; [done|exact Hext|].
    apply extends_quiet; auto.
    eexists (_ :: new). rewrite Htr, <- app_assoc. split; [reflexivity|]. done.
  - pose proof (upload_to_azure_extends cfg file_path st Hp) as [Hext Haz].
    cbv zeta in *.
    destruct (_upload_to_azure AZURE_AVAILABLE ext cfg file_path st)
      as [[[]|e] st1]; cbn [snd] in *.
    { eexists. split; [reflexivity|]. auto. }
    unfold mbind, M_bind. run.
    destruct (upload_callback_run callback (value AZURE_BLOB) false
                (with_trace st1 (trace st1 ++
                   [Log exception ("Error starting upload to " +:+ value AZURE_BLOB
                                     +:+ ": " +:+ exn_msg e)])))
      as (st2 & Hrun & Hs & Hh & Hn & new & Htr & Hst & _).
    unfold with_trace in Hrun. rewrite Hrun. cbn.
    eexists. split; [reflexivity|]. cbn in *.
    assert (Hq : extends st1 st2).
    { apply extends_quiet; auto.
      eexists (_ :: new). rewrite Htr, <- app_assoc. split; [reflexivity|]. done. }
    split; [by eapply extends_trans|].
    destruct (constructible AZURE_AVAILABLE ext cfg).
    + apply (fresh_azure_extends st st1 st2); auto.
      * destruct Hext as (_ & _ & _ & _ & Hb' & _). auto.
      * destruct Hext as (_ & _ & Hle & _). exact Hle.
    + congruence.
Qed.

Lemma upload_loop_cons cfg configs file_path callback st st1 :
  upload_loop AZURE_AVAILABLE ext [cfg] file_path callback st = (Ok tt, st1) ->
  upload_loop AZURE_AVAILABLE ext (cfg :: configs) file_path callback st
  = upload_loop AZURE_AVAILABLE ext configs file_path callback st1.
Proof.
  cbn [upload_loop]. unfold mbind at 1 3. unfold M_bind.
  destruct (try_except _ _ st) as [[[]|e] st1']; cbn; [|discriminate].
  by intros [= ->].
Qed.

Lemma upload_loop_extends configs file_path callback st :
  heap_bounded st ->
  exists st',
    upload_loop AZURE_AVAILABLE ext configs file_path callback st = (Ok tt, st') /\
    extends st st' /\
    ((exists cfg, cfg ∈ configs /\ constructible AZURE_AVAILABLE ext cfg = true) ->
     fresh_azure st st') /\
    ((forall cfg, cfg ∈ configs -> constructible AZURE_AVAILABLE ext cfg = false) ->
     azure_uploader (self st') = azure_uploader (self st)).
Proof.
  revert st. induction configs as [|cfg configs IH]; intros st Hb.
  - exists st. split; [reflexivity|]. split; [apply extends_refl|].
    split; [|reflexivity]. intros (cfg & Hin & _). by apply elem_of_nil in Hin.
  - destruct (upload_iteration cfg file_path callback st Hb) as (st1 & Hrun & Hext & Haz).
    assert (Hb1 : heap_bounded st1) by (destruct Hext as (_ & _ & _ & _ & Hb' & _); auto).
    destruct (IH st1 Hb1) as (st2 & Hrun' & Hext' & Hsome & Hnone).
    exists st2. rewrite (upload_loop_cons _ _ _ _ _ _ Hrun).
    split; [exact Hrun'|]. split; [by eapply extends_trans|]. split.
    + intros (cfg' & Hin & Hc). apply elem_of_cons in Hin as [->|Hin].
      * rewrite Hc in Haz. apply (fresh_azure_extends st st1 st2); auto.
        destruct Hext as (_ & _ & Hle & _). exact Hle.
      * destruct Hext as (_ & _ & Hle & _).
        destruct (Hsome (ex_intro _ cfg' (conj Hin Hc))) as (r & u & ? & ? & ? & ?).
        exists r, u. repeat split; auto. lia.
    + intros Hall. rewrite Hnone.
      * rewrite (Hall cfg) in Haz; [exact Haz|]. apply elem_of_cons. by left.
      * intros cfg' Hin. apply Hall, elem_of_cons. by right.
Qed.

(** [upload_file], from any state. *)
Lemma upload_file_extends file_path callback st :
  heap_bounded st ->
  exists st',
    upload_file AZURE_AVAILABLE ext file_path callback st = (Ok tt, st') /\
    extends st st' /\
    ((exists cfg, cfg ∈ storage_configs (self st)
                  /\ constructible AZURE_AVAILABLE ext cfg = true) ->
     fresh_azure st st') /\
    ((forall cfg, cfg ∈ storage_configs (self st) ->
                  constructible AZURE_AVAILABLE ext cfg = false) ->
     azure_uploader (self st') = azure_uploader (self st)).
Proof.
  intros Hb. unfold upload_file. unfold mbind at 1. unfold M_bind, get_state.
  destruct (storage_configs (self st)) as [|cfg configs] eqn:Hcfgs.
  - run. eexists. split; [reflexivity|]. split.
    + apply extends_quiet; auto. eexists [_]. split; reflexivity.
    + split; [|reflexivity]. intros (cfg & Hin & _). by apply elem_of_nil in Hin.
  - unfold mbind, M_bind, modify.
    set (st0 := mkState (self st) (heap st) (next_oid st) [] [] (trace st)).
    destruct (upload_loop_extends (cfg :: configs) file_path callback st0 Hb)
      as (st' & Hrun & Hext & Hsome & Hnone).
    exists st'. split; [exact Hrun|]. auto.
Qed.

Lemma exception_logs_app tr1 tr2 :
  exception_logs (tr1 ++ tr2) = exception_logs tr1 ++ exception_logs tr2.
Proof.
  induction tr1 as [|ev tr1 IH]; [reflexivity|].
  destruct ev as [[] ?| | | | | | |]; cbn; by rewrite ?IH.
Qed.

Lemma uploader_wait_for_upload_run r st :
  exists new,
    uploader_wait_for_upload ext r st
    = (match wait_verdict ext st r with None => Ok tt | Some e => Raise e end,
       with_trace st (trace st ++ new)) /\
    waited new = [r] /\ started new = [] /\ exception_logs new = [].
Proof.
  unfold uploader_wait_for_upload, wait_verdict, azure_file_uploader.wait_for_upload.
  run. unfold with_trace.
  destruct (heap st !! r) as [[fu|u]|] eqn:Hr; cbn.
  - exists [WaitForUpload r].
    destruct (FileUploader_wait_for_upload ext r); cbn; auto.
  - rewrite Hr. cbn. destruct (_upload_thread u); cbn.
    + destruct (thread_is_alive ext r); cbn.
      * destruct (thread_join ext r); cbn.
        -- exists [WaitForUpload r]. auto.
        -- exists [WaitForUpload r; ThreadJoin r]. rewrite <- app_assoc. auto.
      * exists [WaitForUpload r]. auto.
    + exists [WaitForUpload r]. auto.
  - exists [WaitForUpload r]. auto.
Qed.

Lemma wait_loop_run uploaders st :
  exists new,
    wait_loop ext uploaders st = (Ok tt, with_trace st (trace st ++ new)) /\
    waited new = uploaders /\ started new = [] /\
    exception_logs new = wait_error_log <$> omap (wait_verdict ext st) uploaders.
Proof.
  revert st. induction uploaders as [|r uploaders IH]; intros st.
  - exists []. rewrite app_nil_r, state_eta. auto.
  - cbn [wait_loop]. unfold mbind at 1. unfold M_bind, try_except.
    destruct (uploader_wait_for_upload_run r st) as (new1 & -> & Hw1 & Hs1 & He1).
    cbn [omap list_omap fmap list_fmap].
    destruct (wait_verdict ext st r) as [e|] eqn:Hv.
    + unfold logger, emit, modify. cbn.
      destruct (IH (with_trace st ((trace st ++ new1)
                      ++ [Log exception ("Error waiting for upload: " +:+ exn_msg e)])))
        as (new2 & Hrun & Hw2 & Hs2 & He2).
      unfold with_trace in *. cbn in *. rewrite Hrun.
      exists (new1 ++ [Log exception ("Error waiting for upload: " +:+ exn_msg e)] ++ new2).
      rewrite !app_assoc. split; [reflexivity|].
      rewrite !waited_app, !started_app, !exception_logs_app, Hw1, Hs1, He1, Hw2, Hs2, He2.
      cbn. auto.
    + destruct (IH (with_trace st (trace st ++ new1))) as (new2 & Hrun & Hw2 & Hs2 & He2).
      unfold with_trace in *. cbn in *. rewrite Hrun.
      exists (new1 ++ new2).
      rewrite !app_assoc. split; [reflexivity|].
      rewrite !waited_app, !started_app, !exception_logs_app, Hw1, Hs1, He1, Hw2, Hs2, He2.
      cbn. auto.
Qed.

Lemma wait_for_uploads_run st :
  exists new,
    wait_for_uploads ext st = (Ok tt, with_trace st (trace st ++ new)) /\
    waited new = upload_threads (self st) /\ started new = [] /\
    exception_logs new
    = wait_error_log <$> omap (wait_verdict ext st) (upload_threads (self st)).
Proof.
  unfold wait_for_uploads, mbind, M_bind, get_state. apply wait_loop_run.
Qed.

Lemma get_azure_blob_url_run st :
  exists new,
    get_azure_blob_url ext st
    = (Ok match azure_uploader (self st) with
          | Some r =>
              match heap st !! r with
              | Some (AzureUploader u) => url_of ext u
              | _ => None
              end
          | None => None
          end,
       with_trace st (trace st ++ new)) /\
    started new = [].
Proof.
  unfold get_azure_blob_url, azure_file_uploader.get_blob_url, url_of. run.
  unfold with_trace.
  destruct (azure_uploader (self st)) as [r|]; cbn.
  2: { exists []. rewrite app_nil_r. by destruct st. }
  destruct (heap st !! r) as [[fu|u]|]; cbn.
  - eexists [_]. split; reflexivity.
  - destruct (get_blob_client ext _ _ _); cbn.
    + eexists [_]. split; reflexivity.
    + exists []. rewrite app_nil_r. by destruct st.
  - eexists [_]. split; reflexivity.
Qed.

Lemma loader_warnings_start_nothing env :
  started (_load_storage_configs AZURE_AVAILABLE env).2 = [].
Proof.
  unfold _load_storage_configs, _get_aws_config, _get_azure_config.
  destruct (_should_use_aws env), (_should_use_azure AZURE_AVAILABLE env);
    repeat match goal with
      | |- context [if ?b then _ else _] => destruct b
      end; reflexivity.
Qed.

Lemma coordinator_inv_quiet env fk st new :
  started new = [] ->
  coordinator_inv AZURE_AVAILABLE ext env fk st ->
  coordinator_inv AZURE_AVAILABLE ext env fk (with_trace st (trace st ++ new)).
Proof.
  intros Hnew (Hb & Hfk & Hcfg & Hth & Haz). unfold coordinator_inv, with_trace.
  cbn. rewrite started_app, Hnew, app_nil_r. auto.
Qed.

Lemma reachable_inv env fk st :
  reachable AZURE_AVAILABLE ext env fk st ->
  coordinator_inv AZURE_AVAILABLE ext env fk st.
Proof.
  induction 1 as [|st file_path callback _ IH|st _ IH|st _ IH].
  - unfold coordinator_inv, __init__. cbn. split; [|split; [|split; [|split]]].
    + intros r _. apply lookup_empty.
    + reflexivity.
    + reflexivity.
    + by rewrite loader_warnings_start_nothing.
    + intros [? [=]].
  - destruct IH as (Hb & Hfk & Hcfg & Hth & Haz).
    destruct (upload_file_extends file_path callback st Hb)
      as (st' & -> & Hext & Hsome & Hnone).
    pose proof Hext as (Hfk' & Hcfg' & _ & _ & Hb' & (new & added & Htr & Hst & Hth') & _).
    cbn [snd]. unfold coordinator_inv. rewrite Hfk', Hcfg'. repeat split; auto.
    + rewrite Hth', Htr, started_app, Hst, Hth. done.
    + intros Hset.
      destruct (decide (Exists (fun cfg => constructible AZURE_AVAILABLE ext cfg = true)
                          (storage_configs (self st)))) as [Hex|Hno].
      * apply Exists_exists in Hex. exact Hex.
      * apply Haz. rewrite <- Hnone; [done|].
        intros cfg Hin. apply not_true_is_false. intros Hc.
        apply Hno, Exists_exists. eauto.
  - destruct (wait_for_uploads_run st) as (new & -> & _ & Hs & _).
    by apply coordinator_inv_quiet.
  - destruct (get_azure_blob_url_run st) as (new & -> & Hs).
    by apply coordinator_inv_quiet.
Qed.

(** C4.  On a coordinator without configs, [upload_file] logs one error
    and returns: the coordinator, the heap and the aggregation lists are
    as before, no callback is called and no upload is started. *)
Theorem upload_file_without_configs
    (file_path : string) (callback : option callable) (st : State) :
  storage_configs (self st) = [] ->
  let run := upload_file AZURE_AVAILABLE ext file_path callback st in
  run = (Ok tt, with_trace st (trace st ++ [Log error "No storage providers configured"])) /\
  self run.2 = self st /\ heap run.2 = heap st /\
  callbacks (new_events st run.2) = [] /\
  uploader_callbacks (new_events st run.2) = [] /\
  started (new_events st run.2) = [].
Proof.
  intros Hnone. cbv zeta.
  assert (Hrun : upload_file AZURE_AVAILABLE ext file_path callback st
                 = (Ok tt, with_trace st
                      (trace st ++ [Log error "No storage providers configured"]))).
  { unfold upload_file, mbind, M_bind, get_state. by rewrite Hnone. }
  rewrite Hrun. unfold new_events. cbn [snd with_trace self heap trace].
  rewrite drop_app_length. repeat split; reflexivity.
Qed.


Lemma new_events_with_trace st new :
  new_events st (with_trace st (trace st ++ new)) = new.
Proof. unfold new_events. cbn. apply drop_app_length. Qed.

(** C6 (amended).  [wait_for_uploads] returns normally and calls
    [wait_for_upload] once, in order, on every uploader whose upload was
    started by any [upload_file] call since the coordinator was built,
    not only by the latest one; each wait that raises is logged through
    [logger.exception] and the later uploaders are waited on all the same.
    Nothing but the trace changes. *)
Theorem wait_for_uploads_waits_on_all_started
    (env : gmap string string) (fk : string) (st : State) :
  reachable AZURE_AVAILABLE ext env fk st ->
  let run := wait_for_uploads ext st in
  run.1 = Ok tt /\
  with_trace run.2 (trace st) = st /\
  upload_threads (self st) = started (trace st) /\
  waited (new_events st run.2) = started (trace st) /\
  exception_logs (new_events st run.2)
  = wait_error_log <$> omap (wait_verdict ext st) (started (trace st)).
Proof.
  intros Hreach. cbv zeta.
  destruct (reachable_inv env fk st Hreach) as (_ & _ & _ & Hth & _).
  destruct (wait_for_uploads_run st) as (new & -> & Hw & _ & He).
  cbn [fst snd]. rewrite new_events_with_trace, <- Hth.
  repeat split; auto. by destruct st.
Qed.


End coordinator_facts.

Lemma upload_file_without_configs_witness :
  let st := __init__ true env_unrecognised "rec.mp4" in
  let run := upload_file true ext_ok "/tmp/rec.mp4" (Some (caller_callable 0)) st in
  run = (Ok tt, with_trace st (trace st ++ [Log error "No storage providers configured"])) /\
  self run.2 = self st /\ heap run.2 = heap st /\
  callbacks (new_events st run.2) = [] /\
  uploader_callbacks (new_events st run.2) = [] /\
  started (new_events st run.2) = [].
Proof.
  apply (upload_file_without_configs true ext_ok "/tmp/rec.mp4" (Some (caller_callable 0))
           (__init__ true env_unrecognised "rec.mp4")).
  reflexivity.
Defined.


Lemma wait_for_uploads_waits_on_all_started_witness :
  let st := (upload_file true ext_ok "/tmp/rec.mp4" None
               (__init__ true env_both "rec.mp4")).2 in
  let run := wait_for_uploads ext_ok st in
  run.1 = Ok tt /\
  with_trace run.2 (trace st) = st /\
  upload_threads (self st) = started (trace st) /\
  waited (new_events st run.2) = started (trace st) /\
  exception_logs (new_events st run.2)
  = wait_error_log <$> omap (wait_verdict ext_ok st) (started (trace st)).
Proof.
  apply (wait_for_uploads_waits_on_all_started true ext_ok env_both "rec.mp4").
  apply reachable_upload_file, reachable_init.
Defined.

(** C6 as stated fails: after two [upload_file] calls the latest call
    started uploader 1 only, yet [wait_for_uploads] waits on uploader 0 of
    the first call as well. *)
Lemma wait_for_uploads_reaches_back :
  let st0 := __init__ true env_azure "rec.mp4" in
  let st1 := (upload_file true ext_ok "/tmp/rec.mp4" None st0).2 in
  let st2 := (upload_file true ext_ok "/tmp/rec.mp4" None st1).2 in
  let run := wait_for_uploads ext_ok st2 in
  started (new_events st1 st2) = [1] /\
  waited (new_events st2 run.2) = [0; 1] /\
  waited (new_events st2 run.2) <> started (new_events st1 st2).
Proof. vm_compute. repeat split; congruence. Qed.


(** A wait that raises is logged and the next uploader is waited on. *)
Example wait_for_uploads_after_error :
  let st := (upload_file true ext_join_fails "/tmp/rec.mp4" None
               (__init__ true env_both "rec.mp4")).2 in
  let st1 := (upload_file true ext_join_fails "/tmp/rec.mp4" None st).2 in
  let run := wait_for_uploads ext_join_fails st1 in
  run.1 = Ok tt /\
  waited (new_events st1 run.2) = [0; 1; 2; 3] /\
  exception_logs (new_events st1 run.2)
  = ["Error waiting for upload: cannot join current thread"].
Proof. vm_compute. repeat split; reflexivity. Qed.

(** The worker on a missing file, and on a file that uploads. *)
Example upload_worker_samples :
  let missing := azure_file_uploader._upload_worker true ext_no_file sample_uploader
                   "/tmp/rec.mp4" (Some (caller_callable 0))
                   (__init__ true env_azure "rec.mp4") in
  let fine := azure_file_uploader._upload_worker true ext_ok sample_uploader
                "/tmp/rec.mp4" (Some (caller_callable 0))
                (__init__ true env_azure "rec.mp4") in
  missing.1 = Ok tt /\
  trace missing.2
  = [Log error "Upload error: File not found: /tmp/rec.mp4";
     CallUploaderCallback (caller_callable 0) false] /\
  fine.1 = Ok tt /\ uploader_callbacks (trace fine.2) = [true].
Proof. vm_compute. repeat split; reflexivity. Qed.

(** Mode both with complete settings: S3 is configured first, then Blob. *)
Example configured_providers_sample :
  let m := self (__init__ true env_both "rec.mp4") in
  configured_providers m = ["s3"; "azure"] /\ has_storage_configured m = true.
Proof. split; reflexivity. Qed.

(** The URL returned in the sample world. *)
Example get_azure_blob_url_sample :
  (get_azure_blob_url ext_ok
     (upload_file true ext_ok "/tmp/rec.mp4" None
        (__init__ true env_azure "rec.mp4")).2).1
  = Ok (Some "https://acct.blob.core.windows.net/recordings/rec.mp4").
Proof. reflexivity. Qed.

(** C5: the code at two inputs.  In mode both with a Blob config that has
    only an account key, the S3 upload is started and the Blob provider is
    reported to the caller under the label azure; when instead the S3
    uploader cannot be built, S3 is reported under the label s3 and the Blob
    upload is started all the same.  The labels used on completion are
    AWS S3 and Azure Blob Storage. *)
Theorem start_failure_labels :
  let cb := Some (caller_callable 0) in
  let run1 := upload_file true ext_ok "/tmp/rec.mp4" cb
                (__init__ true env_both_key_only "rec.mp4") in
  let run2 := upload_file true ext_s3_down "/tmp/rec.mp4" cb
                (__init__ true env_both "rec.mp4") in
  let done := fun c ok =>
    callbacks (trace (run_callable cb c ok (__init__ true env_both "rec.mp4")).2) in
  (run1.1 = Ok tt /\ started (trace run1.2) = [0] /\
   callbacks (trace run1.2) = [("azure", false)]) /\
  (run2.1 = Ok tt /\ callbacks (trace run2.2) = [("s3", false)] /\
   started (trace run2.2) = [0] /\ azure_uploader (self run2.2) = Some 0) /\
  done s3_callback false = [("AWS S3", false)] /\
  done azure_callback false = [("Azure Blob Storage", false)].
Proof. vm_compute. repeat split; reflexivity. Qed.

Lemma not_present_truthy v : ¬ present v -> truthy v = false.
Proof. rewrite <- truthy_present. by destruct (truthy v). Qed.

Section key_only.
Variable ext : Externals.
Variable env : gmap string string.

Hypothesis mode_azure : upload_mode_of env = "azure".
Hypothesis container_set : present (getenv env "AZURE_STORAGE_CONTAINER_NAME").
Hypothesis key_set : present (getenv env "AZURE_STORAGE_ACCOUNT_KEY").
Hypothesis no_account : ¬ present (getenv env "AZURE_STORAGE_ACCOUNT_NAME").
Hypothesis no_connection_string :
  ¬ present (getenv env "AZURE_STORAGE_CONNECTION_STRING").

Lemma key_only_loaded :
  _load_storage_configs true env = ([azure_config_of env], []).
Proof.
  apply truthy_present in container_set, key_set.
  apply not_present_truthy in no_account, no_connection_string.
  unfold _load_storage_configs, _should_use_aws, _should_use_azure.
  fold (upload_mode_of env). rewrite mode_azure.
  change (bool_decide ("azure" ∈ ["s3"; "both"; "all"])) with false.
  change (bool_decide ("azure" ∈ ["azure"; "both"; "all"]) && true) with true.
  cbv iota. unfold _get_azure_config.
  destruct (azure_config_lookups
              (getenv env "AZURE_STORAGE_CONTAINER_NAME")
              (getenv env "AZURE_STORAGE_ACCOUNT_NAME")
              (getenv env "AZURE_STORAGE_CONNECTION_STRING")
              (getenv env "AZURE_STORAGE_ACCOUNT_KEY")) as (Hc' & Ha' & Hs' & Hk').
  cbv zeta in *. rewrite Ha', Hs', Hk', container_set, key_set, no_account,
    no_connection_string. cbn [negb orb].
  rewrite append_if_nonempty. cbn [app List.filter validate provider config].
  rewrite Hc', container_set. reflexivity.
Qed.

Lemma key_only_no_strategy :
  strategy_by_priority
    (getenv env "AZURE_STORAGE_ACCOUNT_NAME")
    (getenv env "AZURE_STORAGE_CONNECTION_STRING")
    (getenv env "AZURE_STORAGE_ACCOUNT_KEY") = None.
Proof.
  apply not_present_truthy in no_account, no_connection_string.
  unfold strategy_by_priority. by rewrite no_account, no_connection_string.
Qed.

(** C10.  In mode azure, with a container name and an account key but
    neither a storage-account name nor a connection string, the loader
    returns the Blob config as valid, building the uploader for it raises
    the ValueError of the missing authentication method, and [upload_file]
    returns normally having reported the provider as failed through the
    aggregation callback: nothing was allocated, no upload was started
    and no Blob uploader is retained. *)
Theorem key_only_blob_config_fails_at_construction
    (fk file_path : string) (c : callable) :
  let st := __init__ true env fk in
  let run := upload_file true ext file_path (Some c) st in
  (storage_configs (self st) = [azure_config_of env] /\
   validate (azure_config_of env) = true) /\
  (forall container st0,
     (azure_file_uploader.__init__ true ext container fk
        (dict_get (config (azure_config_of env)) "storage_account_name")
        (dict_get (config (azure_config_of env)) "connection_string")
        (dict_get (config (azure_config_of env)) "account_key") st0).1
     = Raise no_auth_error) /\
  run.1 = Ok tt /\
  callbacks (new_events st run.2) = [("azure", false)] /\
  failed_uploads run.2 = ["azure"] /\
  started (new_events st run.2) = [] /\
  heap run.2 = ∅ /\
  azure_uploader (self run.2) = None.
Proof.
  cbv zeta.
  destruct (azure_config_lookups
              (getenv env "AZURE_STORAGE_CONTAINER_NAME")
              (getenv env "AZURE_STORAGE_ACCOUNT_NAME")
              (getenv env "AZURE_STORAGE_CONNECTION_STRING")
              (getenv env "AZURE_STORAGE_ACCOUNT_KEY")) as (Hc' & Ha' & Hs' & Hk').
  cbv zeta in *.
  assert (Hinit : forall container st0,
    azure_file_uploader.__init__ true ext container fk
      (dict_get (config (azure_config_of env)) "storage_account_name")
      (dict_get (config (azure_config_of env)) "connection_string")
      (dict_get (config (azure_config_of env)) "account_key") st0
    = (Raise no_auth_error,
       with_trace st0 (trace st0 ++ [init_failure_log no_auth_error]))).
  { intros container st0. rewrite azure_file_uploader_init_run.
    unfold azure_config_of. cbn [config]. rewrite Ha', Hs', Hk'.
    by rewrite key_only_no_strategy. }
  split; [|split; [intros; by rewrite Hinit|]].
  { unfold __init__. rewrite key_only_loaded. split; [reflexivity|].
    unfold validate, azure_config_of. cbn [provider config]. rewrite Hc'.
    by apply truthy_present. }
  unfold upload_file, __init__, new_events. rewrite key_only_loaded.
  unfold mbind, M_bind, mret, M_ret, get_state, modify, try_except, lift.
  cbn [fst snd self storage_configs upload_loop provider azure_config_of trace length drop].
  unfold _upload_to_azure, dict_getitem.
  unfold mbind, M_bind, mret, M_ret, get_state, modify, try_except, lift.
  change (config _ !! "container_name")
    with (Some (getenv env "AZURE_STORAGE_CONTAINER_NAME")).
  cbn [self file_key].
  rewrite (Hinit (getenv env "AZURE_STORAGE_CONTAINER_NAME")).
  repeat split; reflexivity.
Qed.

End key_only.

Lemma key_only_blob_config_fails_at_construction_witness :
  let st := __init__ true env_key_only "rec.mp4" in
  let run := upload_file true ext_ok "/tmp/rec.mp4" (Some (caller_callable 0)) st in
  (storage_configs (self st) = [azure_config_of env_key_only] /\
   validate (azure_config_of env_key_only) = true) /\
  (forall container st0,
     (azure_file_uploader.__init__ true ext_ok container "rec.mp4"
        (dict_get (config (azure_config_of env_key_only)) "storage_account_name")
        (dict_get (config (azure_config_of env_key_only)) "connection_string")
        (dict_get (config (azure_config_of env_key_only)) "account_key") st0).1
     = Raise no_auth_error) /\
  run.1 = Ok tt /\
  callbacks (new_events st run.2) = [("azure", false)] /\
  failed_uploads run.2 = ["azure"] /\
  started (new_events st run.2) = [] /\
  heap run.2 = ∅ /\
  azure_uploader (self run.2) = None.
Proof.
  apply (key_only_blob_config_fails_at_construction ext_ok env_key_only).
  - reflexivity.
  - exists "recordings". split; [reflexivity|discriminate].
  - exists "k". split; [reflexivity|discriminate].
  - intros (s & H & _). vm_compute in H. discriminate.
  - intros (s & H & _). vm_compute in H. discriminate.
Defined.

(** * Further properties of the configuration code *)

Section loader_shape.
Variable AZURE_AVAILABLE : bool.
Variable env : gmap string string.

(** X1.  Whatever the environment, the loader returns at most one config
    per provider and puts S3 before Blob: the configured providers are
    nothing, s3, azure, or s3 followed by azure; and
    [has_storage_configured] is true exactly when that list is not empty. *)
Theorem configured_providers_shape (fk : string) :
  let m := self (__init__ AZURE_AVAILABLE env fk) in
  configured_providers m ∈ [[]; ["s3"]; ["azure"]; ["s3"; "azure"]] /\
  has_storage_configured m = negb (bool_decide (configured_providers m = [])).
Proof.
  cbv zeta. unfold __init__, configured_providers, has_storage_configured,
    _load_storage_configs.
  cbn [self storage_configs].
  destruct (_should_use_aws env), (_should_use_azure AZURE_AVAILABLE env),
    (_get_aws_config env) as [[d1|] w1], (_get_azure_config env) as [[d2|] w2];
    cbn [fst append_if];
    repeat match goal with
      | |- context [bool_decide (?d = ∅)] => destruct (bool_decide (d = ∅))
      end;
    cbn [app List.filter validate provider];
    repeat match goal with
      | |- context [truthy ?v] => destruct (truthy v)
      end;
    (split; [compute_done | reflexivity]).
Qed.


End loader_shape.

Lemma lower_char_idempotent c : lower_char (lower_char c) = lower_char c.
Proof. by destruct c as [[] [] [] [] [] [] [] []]. Qed.

Lemma lower_idempotent s : lower (lower s) = lower s.
Proof.
  induction s as [|c s IH]; [reflexivity|].
  cbn. by rewrite lower_char_idempotent, IH.
Qed.

Lemma getenv_other_key (env : gmap string string) (mode key : string) :
  key <> "STORAGE_UPLOAD_MODE" ->
  getenv (<["STORAGE_UPLOAD_MODE" := mode]> env) key = getenv env key.
Proof. intros Hne. unfold getenv. by apply lookup_insert_ne. Qed.

Lemma get_configs_ignore_mode (env : gmap string string) (mode : string) :
  _get_aws_config (<["STORAGE_UPLOAD_MODE" := mode]> env) = _get_aws_config env /\
  _get_azure_config (<["STORAGE_UPLOAD_MODE" := mode]> env) = _get_azure_config env.
Proof.
  unfold _get_aws_config, _get_azure_config.
  by rewrite !getenv_other_key.
Qed.

(** X3.  The selector is read without regard to case: two environments that
    differ only in the selector, with values that are equal after lowering,
    load the same configs and log the same warnings; so a selector and its
    lowered form are interchangeable. *)
Theorem upload_mode_is_case_insensitive
    (AZURE_AVAILABLE : bool) (env : gmap string string) (mode1 mode2 : string) :
  lower mode1 = lower mode2 ->
  _load_storage_configs AZURE_AVAILABLE (<["STORAGE_UPLOAD_MODE" := mode1]> env)
  = _load_storage_configs AZURE_AVAILABLE (<["STORAGE_UPLOAD_MODE" := mode2]> env) /\
  _load_storage_configs AZURE_AVAILABLE (<["STORAGE_UPLOAD_MODE" := lower mode1]> env)
  = _load_storage_configs AZURE_AVAILABLE (<["STORAGE_UPLOAD_MODE" := mode1]> env).
Proof.
  assert (Hgen : forall m1 m2, lower m1 = lower m2 ->
    _load_storage_configs AZURE_AVAILABLE (<["STORAGE_UPLOAD_MODE" := m1]> env)
    = _load_storage_configs AZURE_AVAILABLE (<["STORAGE_UPLOAD_MODE" := m2]> env)).
  { intros m1 m2 Hlow. unfold _load_storage_configs.
    destruct (get_configs_ignore_mode env m1) as [-> ->].
    destruct (get_configs_ignore_mode env m2) as [-> ->].
    unfold _should_use_aws, _should_use_azure, getenv_default, getenv.
    rewrite !lookup_insert_eq. unfold default, id. by rewrite Hlow. }
  intros Hlow. split; [by apply Hgen|]. apply Hgen, lower_idempotent.
Qed.

Lemma upload_mode_is_case_insensitive_witness :
  _load_storage_configs true (<["STORAGE_UPLOAD_MODE" := "BoTh"]> env_both)
  = _load_storage_configs true (<["STORAGE_UPLOAD_MODE" := "both"]> env_both) /\
  _load_storage_configs true (<["STORAGE_UPLOAD_MODE" := lower "BoTh"]> env_both)
  = _load_storage_configs true (<["STORAGE_UPLOAD_MODE" := "BoTh"]> env_both).
Proof.
  apply (upload_mode_is_case_insensitive true env_both "BoTh" "both").
  reflexivity.
Defined.

(** X4.  Among the Blob configs the loader returns, the ones for which the
    uploader finds no authentication strategy are exactly those with neither
    a storage-account name nor a connection string; they then carry an
    account key, which alone the uploader cannot use. *)
Theorem loaded_blob_config_without_strategy
    (AZURE_AVAILABLE : bool) (env : gmap string string) (c : StorageConfig) :
  c ∈ (_load_storage_configs AZURE_AVAILABLE env).1 ->
  provider c = AZURE_BLOB ->
  (strategy_by_priority
     (dict_get (config c) "storage_account_name")
     (dict_get (config c) "connection_string")
     (dict_get (config c) "account_key") = None
   <-> ¬ present (getenv env "AZURE_STORAGE_ACCOUNT_NAME")
       /\ ¬ present (getenv env "AZURE_STORAGE_CONNECTION_STRING")) /\
  (¬ present (getenv env "AZURE_STORAGE_ACCOUNT_NAME") ->
   ¬ present (getenv env "AZURE_STORAGE_CONNECTION_STRING") ->
   present (getenv env "AZURE_STORAGE_ACCOUNT_KEY")).
Proof.
  intros Hin Hp. apply elem_of_load_storage_configs in Hin as [_ Hc].
  destruct Hc as [[_ (d & w & _ & ->)]|[_ (d & w & Hget & ->)]]; [discriminate|].
  apply get_azure_config_inv in Hget as (_ & Hany & _ & Ha & Hs & Hk).
  cbn [config]. rewrite Ha, Hs, Hk, <- !truthy_present. unfold strategy_by_priority.
  destruct (truthy (getenv env "AZURE_STORAGE_ACCOUNT_NAME")),
    (truthy (getenv env "AZURE_STORAGE_CONNECTION_STRING")),
    (truthy (getenv env "AZURE_STORAGE_ACCOUNT_KEY"));
    cbn in *; try discriminate; split; try split; try done; try tauto;
    intros [? ?]; done.
Qed.

Lemma loaded_blob_config_without_strategy_witness :
  (strategy_by_priority
     (dict_get (config (azure_config_of env_key_only)) "storage_account_name")
     (dict_get (config (azure_config_of env_key_only)) "connection_string")
     (dict_get (config (azure_config_of env_key_only)) "account_key") = None
   <-> ¬ present (getenv env_key_only "AZURE_STORAGE_ACCOUNT_NAME")
       /\ ¬ present (getenv env_key_only "AZURE_STORAGE_CONNECTION_STRING")) /\
  (¬ present (getenv env_key_only "AZURE_STORAGE_ACCOUNT_NAME") ->
   ¬ present (getenv env_key_only "AZURE_STORAGE_CONNECTION_STRING") ->
   present (getenv env_key_only "AZURE_STORAGE_ACCOUNT_KEY")).
Proof.
  apply (loaded_blob_config_without_strategy true env_key_only
           (azure_config_of env_key_only)).
  - vm_compute. left.
  - reflexivity.
Defined.

(** X5.  Whenever the settings module defines [AZURE_STORAGE_BACKEND], its
    options repeat the four settings, the coordinator's loader accepts the
    same environment's Blob settings without a warning, and the uploader
    finds an authentication strategy for them: the configuration error of
    the uploader cannot occur. *)
Theorem storage_backend_implies_usable_blob_settings
    (env : gmap string string) (b : azure_storage_settings.StorageBackend) :
  azure_storage_settings.AZURE_STORAGE_BACKEND env = Some b ->
  (present (getenv env "AZURE_STORAGE_ACCOUNT_NAME") /\
   present (getenv env "AZURE_STORAGE_CONTAINER_NAME")) /\
  (dict_get (azure_storage_settings.OPTIONS b) "account_name"
   = getenv env "AZURE_STORAGE_ACCOUNT_NAME" /\
   dict_get (azure_storage_settings.OPTIONS b) "account_key"
   = getenv env "AZURE_STORAGE_ACCOUNT_KEY" /\
   dict_get (azure_storage_settings.OPTIONS b) "azure_container"
   = getenv env "AZURE_STORAGE_CONTAINER_NAME" /\
   dict_get (azure_storage_settings.OPTIONS b) "connection_string"
   = getenv env "AZURE_STORAGE_CONNECTION_STRING") /\
  _get_azure_config env = (Some (config (azure_config_of env)), []) /\
  validate (azure_config_of env) = true /\
  is_Some (strategy_by_priority
             (getenv env "AZURE_STORAGE_ACCOUNT_NAME")
             (getenv env "AZURE_STORAGE_CONNECTION_STRING")
             (getenv env "AZURE_STORAGE_ACCOUNT_KEY")).
Proof.
  unfold azure_storage_settings.AZURE_STORAGE_BACKEND,
    azure_storage_settings.AZURE_STORAGE_ACCOUNT_NAME,
    azure_storage_settings.AZURE_STORAGE_CONTAINER_NAME,
    azure_storage_settings.AZURE_STORAGE_ACCOUNT_KEY,
    azure_storage_settings.AZURE_STORAGE_CONNECTION_STRING.
  destruct (truthy (getenv env "AZURE_STORAGE_ACCOUNT_NAME")) eqn:Ha;
    [|discriminate].
  destruct (truthy (getenv env "AZURE_STORAGE_CONTAINER_NAME")) eqn:Hc;
    [|discriminate].
  cbn [andb]. intros [= <-]. cbn [azure_storage_settings.OPTIONS].
  split; [split; by apply truthy_present|].
  split; [repeat split; reflexivity|].
  destruct (azure_config_lookups
              (getenv env "AZURE_STORAGE_CONTAINER_NAME")
              (getenv env "AZURE_STORAGE_ACCOUNT_NAME")
              (getenv env "AZURE_STORAGE_CONNECTION_STRING")
              (getenv env "AZURE_STORAGE_ACCOUNT_KEY")) as (Hc' & Ha' & Hs' & Hk').
  cbv zeta in *. split; [|split].
  - unfold _get_azure_config. cbv zeta. rewrite Ha', Hs', Hk', Hc, Ha. reflexivity.
  - unfold validate, azure_config_of. cbn [provider config]. by rewrite Hc'.
  - unfold strategy_by_priority. rewrite Ha.
    destruct (truthy (getenv env "AZURE_STORAGE_CONNECTION_STRING")),
      (truthy (getenv env "AZURE_STORAGE_ACCOUNT_KEY")); cbn; eauto.
Qed.

Lemma storage_backend_implies_usable_blob_settings_witness :
  _get_azure_config env_azure = (Some (config (azure_config_of env_azure)), []) /\
  validate (azure_config_of env_azure) = true /\
  is_Some (strategy_by_priority
             (getenv env_azure "AZURE_STORAGE_ACCOUNT_NAME")
             (getenv env_azure "AZURE_STORAGE_CONNECTION_STRING")
             (getenv env_azure "AZURE_STORAGE_ACCOUNT_KEY")).
Proof.
  eapply (fun H => proj2 (proj2 (storage_backend_implies_usable_blob_settings
                                   env_azure _ H))).
  reflexivity.
Defined.

(** * Further properties of the coordinator *)

Section upload_accounting.
Variable AZURE_AVAILABLE : bool.
Variable ext : Externals.

Ltac exec :=
  unfold mbind, M_bind, mret, M_ret, lift, call, raise, logger, emit, modify,
    set_self, store, alloc, get_state, deref_azure, try_except in *;
  cbn [fst snd self heap next_oid successful_uploads failed_uploads trace
       file_key storage_configs upload_threads azure_uploader] in *.

Lemma handles_allocated_alloc st o m tr su fa :
  heap_bounded st -> handles_allocated st ->
  upload_threads m = upload_threads (self st)
  \/ (upload_threads m = upload_threads (self st) ++ [next_oid st] /\
      match o with
      | S3Uploader _ => True
      | AzureUploader u => is_Some (_upload_thread u)
      end) ->
  azure_uploader m = azure_uploader (self st)
  \/ (azure_uploader m = Some (next_oid st) /\ exists u, o = AzureUploader u) ->
  let st' := mkState m (<[next_oid st := o]> (heap st)) (S (next_oid st)) su fa tr in
  heap_bounded st' /\ handles_allocated st'.
Proof.
  intros Hb [Hth Haz] Hthreads Hazure. cbv zeta. split.
  - intros r Hr. cbn in *. rewrite lookup_insert_ne by lia. apply Hb. lia.
  - split; cbn.
    + intros r Hin.
      assert (Hold : r ∈ upload_threads (self st) ->
                match <[next_oid st := o]> (heap st) !! r with
                | Some (S3Uploader _) => True
                | Some (AzureUploader u) => is_Some (_upload_thread u)
                | None => False
                end).
      { intros Hr. specialize (Hth r Hr).
        destruct (heap st !! r) as [o'|] eqn:Hlook; [|done].
        rewrite lookup_insert_ne, Hlook; [done|].
        apply (heap_bounded_lt st r o') in Hlook; [lia|done]. }
      destruct Hthreads as [Heq|[Heq Ho]]; rewrite Heq in Hin; [by apply Hold|].
      apply elem_of_app in Hin as [Hr|Hr]; [by apply Hold|].
      apply list_elem_of_singleton in Hr as ->. by rewrite lookup_insert_eq.
    + intros r Hr.
      destruct Hazure as [Hsame|[Hnew [u ->]]].
      * rewrite Hsame in Hr. destruct (Haz r Hr) as [u Hu].
        exists u. rewrite lookup_insert_ne; [done|].
        apply (heap_bounded_lt st r _) in Hu; [lia|done].
      * rewrite Hnew in Hr. injection Hr as <-. exists u. apply lookup_insert_eq.
Qed.

Ltac attempt_split :=
  split; [reflexivity|split; [reflexivity|split; [reflexivity|split;
    [reflexivity|split]]]].

Lemma upload_to_s3_facts cfg file_path st :
  attempt_facts st (_upload_to_s3 ext cfg file_path st).
Proof.
  unfold attempt_facts, _upload_to_s3, dict_getitem. exec.
  destruct (config cfg !! "bucket") as [bucket|]; cbn.
  2: { attempt_split; [auto|].
       exists []. rewrite app_nil_r. repeat split; auto. }
  destruct (new_FileUploader ext _); cbn.
  { attempt_split; [auto|].
    exists []. rewrite app_nil_r. repeat split; auto. }
  destruct (FileUploader_upload_file ext _ _ _); cbn.
  - attempt_split.
    + intros Hb Ha. apply (handles_allocated_alloc st); auto.
    + exists []. rewrite app_nil_r. repeat split; auto.
  - attempt_split.
    + intros Hb Ha. apply (handles_allocated_alloc st); auto.
    + eexists [_]. repeat split; auto. repeat constructor.
Qed.

Lemma wired_strategy_log s : wired (strategy_log s).
Proof. by destruct s. Qed.

Lemma callbacks_strategy_log s : callbacks [strategy_log s] = [].
Proof. by destruct s. Qed.

Lemma started_strategy_log s : started [strategy_log s] = [].
Proof. by destruct s. Qed.

Lemma upload_to_azure_facts cfg file_path st :
  attempt_facts st (_upload_to_azure AZURE_AVAILABLE ext cfg file_path st).
Proof.
  unfold attempt_facts, _upload_to_azure, dict_getitem. exec.
  destruct (config cfg !! "container_name") as [container|]; cbn.
  2: { attempt_split; [auto|].
       exists []. rewrite app_nil_r. repeat split; auto. }
  rewrite azure_file_uploader_init_run.
  destruct AZURE_AVAILABLE.
  2: { cbn. attempt_split; [auto|].
       exists []. rewrite app_nil_r. repeat split; auto. }
  destruct (strategy_by_priority _ _ _) as [s|]; cbv zeta.
  2: { cbn. attempt_split; [auto|].
       eexists [_]. repeat split; auto. repeat constructor. }
  destruct (sdk_verdict ext _) as [e|]; cbn.
  { attempt_split; [auto|].
    eexists [_; _]. repeat split; auto.
    - apply callbacks_strategy_log.
    - repeat constructor. apply wired_strategy_log.
    - by destruct s. }
  unfold azure_file_uploader.upload_file. exec.
  rewrite lookup_insert_eq. cbn. rewrite insert_insert_eq.
  destruct (thread_start ext _) as [e|]; cbn.
  - attempt_split.
    + intros Hb Ha. apply (handles_allocated_alloc st); eauto.
    + eexists [_]. repeat split; auto.
      * apply callbacks_strategy_log.
      * repeat constructor. apply wired_strategy_log.
      * apply started_strategy_log.
  - attempt_split.
    + intros Hb Ha. apply (handles_allocated_alloc st); cbn; eauto.
    + eexists [_; _]. rewrite <- app_assoc. repeat split; auto.
      * by destruct s.
      * repeat constructor. apply wired_strategy_log.
      * by destruct s.
Qed.

Lemma upload_callback_failure_run callback name st :
  upload_callback callback name false st
  = (Ok tt,
     mkState (self st) (heap st) (next_oid st) (successful_uploads st)
       (failed_uploads st ++ [name])
       (trace st ++ Log error ("Failed to upload to " +:+ name)
          :: match callback with
             | Some c => [CallCallback c name false]
             | None => []
             end)).
Proof.
  unfold upload_callback. destruct callback; exec; cbn;
    rewrite <- ?app_assoc; reflexivity.
Qed.

Ltac loop_split := split; [|split; [|split; [|split]]].

Lemma loop_facts_nil callback st : loop_facts callback [] st st.
Proof.
  unfold loop_facts. loop_split; auto.
  exists [], []. rewrite !app_nil_r. destruct callback; repeat split; auto.
Qed.

Lemma loop_facts_app callback configs1 configs2 st0 st1 st2 :
  loop_facts callback configs1 st0 st1 ->
  loop_facts callback configs2 st1 st2 ->
  loop_facts callback (configs1 ++ configs2) st0 st2.
Proof.
  intros (Hsu & Hfk & Hcf & Hheap & new & fails & Htr & Hfa & Hcb & Hw & Hlen & Hin & Hth)
         (Hsu' & Hfk' & Hcf' & Hheap' & new' & fails' & Htr' & Hfa' & Hcb' & Hw' & Hlen' & Hin' & Hth').
  unfold loop_facts. split; [congruence|]. split; [congruence|]. split; [congruence|].
  split.
  { intros Hb Ha. destruct (Hheap Hb Ha) as [Hb1 Ha1]. by apply Hheap'. }
  exists (new ++ new'), (fails ++ fails').
  rewrite Htr', Htr, Hfa', Hfa, Hth', Hth, callbacks_app, Hcb, Hcb', started_app,
    !length_app, !app_assoc.
  repeat split; auto.
  - destruct callback; [by rewrite fmap_app|done].
  - by apply Forall_app.
  - lia.
  - rewrite fmap_app. apply Forall_app. split.
    + eapply Forall_impl; [exact Hin|]. intros name Hn. apply elem_of_app. by left.
    + eapply Forall_impl; [exact Hin'|]. intros name Hn. apply elem_of_app. by right.
Qed.

(** One iteration of the loop of [upload_file], in full. *)
Lemma upload_iteration_facts cfg file_path callback st :
  exists st',
    upload_loop AZURE_AVAILABLE ext [cfg] file_path callback st = (Ok tt, st') /\
    loop_facts callback [cfg] st st'.
Proof.
  cbn [upload_loop]. unfold mbind at 1. unfold M_bind, try_except.
  set (run := match provider cfg with
              | AWS_S3 => _upload_to_s3 ext cfg file_path
              | AZURE_BLOB => _upload_to_azure AZURE_AVAILABLE ext cfg file_path
              end st).
  assert (Hfacts : attempt_facts st run).
  { subst run. destruct (provider cfg);
      [apply upload_to_s3_facts | apply upload_to_azure_facts]. }
  destruct run as [[[]|e] st1].
  - destruct Hfacts as (Hsu & Hfa & Hfk & Hcf & Hheap & new & Htr & Hcb & Hw & Hst & Hth).
    cbn [fst snd] in *. eexists. split; [reflexivity|].
    unfold loop_facts. loop_split; auto.
    exists new, []. rewrite app_nil_r, Hst. cbn.
    repeat split; auto. by destruct callback.
  - destruct Hfacts as (Hsu & Hfa & Hfk & Hcf & Hheap & new & Htr & Hcb & Hw & Hst & Hth).
    cbn [fst snd] in *.
    unfold mbind, M_bind, logger, emit, modify.
    rewrite upload_callback_failure_run. cbn.
    eexists. split; [reflexivity|].
    unfold loop_facts. cbn. loop_split; auto.
    eexists (new ++ _ :: _), [value (provider cfg)].
    rewrite Htr, Hfa, Hth, <- !app_assoc. cbn.
    split; [reflexivity|]. split; [reflexivity|].
    rewrite callbacks_app, started_app, Hcb, Hst. cbn.
    destruct callback; cbn; repeat split; auto;
      try (apply Forall_app; split; [done|repeat constructor]);
      try (rewrite app_nil_r; reflexivity);
      repeat constructor.
Qed.

Lemma upload_loop_facts configs file_path callback st :
  exists st',
    upload_loop AZURE_AVAILABLE ext configs file_path callback st = (Ok tt, st') /\
    loop_facts callback configs st st'.
Proof.
  revert st. induction configs as [|cfg configs IH]; intros st.
  - exists st. split; [reflexivity|apply loop_facts_nil].
  - destruct (upload_iteration_facts cfg file_path callback st) as (st1 & Hrun & Hf).
    destruct (IH st1) as (st2 & Hrun' & Hf').
    exists st2. rewrite (upload_loop_cons _ _ _ _ _ _ _ _ Hrun).
    split; [exact Hrun'|]. apply (loop_facts_app callback [cfg] configs st st1 st2 Hf Hf').
Qed.

(** [upload_file], in full. *)
Lemma upload_file_facts file_path callback st :
  exists st',
    upload_file AZURE_AVAILABLE ext file_path callback st = (Ok tt, st') /\
    match storage_configs (self st) with
    | [] => st' = with_trace st (trace st ++ [Log error "No storage providers configured"])
    | _ :: _ =>
        loop_facts callback (storage_configs (self st))
          (mkState (self st) (heap st) (next_oid st) [] [] (trace st)) st'
    end.
Proof.
  unfold upload_file. unfold mbind at 1. unfold M_bind, get_state.
  destruct (storage_configs (self st)) as [|cfg configs] eqn:Hcfgs.
  - eexists. split; reflexivity.
  - unfold mbind, M_bind, modify.
    apply upload_loop_facts.
Qed.

Lemma quiet_wired new : started new = [] -> Forall wired new.
Proof.
  induction new as [|ev new IH]; [constructor|].
  destruct ev; cbn; try discriminate; intros H; constructor; auto; exact I.
Qed.

Lemma reachable_handles env fk st :
  reachable AZURE_AVAILABLE ext env fk st ->
  heap_bounded st /\ handles_allocated st /\ Forall wired (trace st).
Proof.
  induction 1 as [|st file_path callback _ IH|st _ IH|st _ IH].
  - split; [|split].
    + intros r _. apply lookup_empty.
    + split; cbn; [intros r Hr; by apply elem_of_nil in Hr|discriminate].
    + apply quiet_wired. cbn. apply loader_warnings_start_nothing.
  - destruct IH as (Hb & Ha & Hw).
    destruct (upload_file_facts file_path callback st) as (st' & -> & Hf).
    cbn [snd]. destruct (storage_configs (self st)).
    + subst st'. repeat split; try apply Ha; auto.
      cbn. apply Forall_app. split; [done|repeat constructor].
    + destruct Hf as (_ & _ & _ & Hheap & new & fails & Htr & _ & _ & Hw' & _).
      destruct (Hheap Hb Ha) as [Hb' Ha']. repeat split; try apply Ha'; auto.
      rewrite Htr. by apply Forall_app.
  - destruct (wait_for_uploads_run ext st) as (new & -> & _ & Hs & _).
    destruct IH as (Hb & Ha & Hw). cbn. repeat split; try apply Ha; auto.
    apply Forall_app. split; [done|by apply quiet_wired].
  - destruct (get_azure_blob_url_run ext st) as (new & -> & Hs).
    destruct IH as (Hb & Ha & Hw). cbn. repeat split; try apply Ha; auto.
    apply Forall_app. split; [done|by apply quiet_wired].
Qed.





(** X8.  On a coordinator, at any point of its life, every handle in
    [upload_threads] refers to a live uploader object and every Blob
    uploader among them has its thread recorded; so [wait_for_uploads] logs
    an error only if joining a thread or the S3 uploader's own wait raises. *)
Theorem wait_for_uploads_is_quiet_unless_a_wait_raises
    (env : gmap string string) (fk : string) (st : State) :
  reachable AZURE_AVAILABLE ext env fk st ->
  (forall r, thread_join ext r = None) ->
  (forall r, FileUploader_wait_for_upload ext r = None) ->
  handles_allocated st /\
  exception_logs (new_events st (wait_for_uploads ext st).2) = [].
Proof.
  intros Hreach Hjoin Hwait.
  destruct (reachable_handles env fk st Hreach) as (_ & Ha & _).
  split; [exact Ha|].
  destruct (wait_for_uploads_run ext st) as (new & Hrun & _ & _ & He).
  rewrite Hrun. cbn [snd]. rewrite new_events_with_trace, He.
  destruct Ha as [Hth _]. revert Hth.
  generalize (upload_threads (self st)). intros l.
  induction l as [|r l IH]; intros Hth; [reflexivity|].
  cbn [omap list_omap].
  assert (Hr : wait_verdict ext st r = None).
  { specialize (Hth r). unfold wait_verdict.
    destruct (heap st !! r) as [[fu|u]|].
    - apply Hwait.
    - destruct (_upload_thread u); [|done].
      destruct (thread_is_alive ext r); [apply Hjoin|done].
    - exfalso. apply Hth. apply elem_of_cons. by left. }
  rewrite Hr. apply IH. intros r' Hr'. apply Hth. apply elem_of_cons. by right.
Qed.

(** X9.  [get_azure_blob_url] is a pure query: it leaves the coordinator
    and the heap as they are, starts nothing and calls nothing back, and
    asking again, or after [wait_for_uploads], gives the same answer. *)
Theorem get_azure_blob_url_is_a_query (st : State) :
  let run := get_azure_blob_url ext st in
  with_trace run.2 (trace st) = st /\
  started (new_events st run.2) = [] /\
  (get_azure_blob_url ext run.2).1 = run.1 /\
  (get_azure_blob_url ext (wait_for_uploads ext st).2).1 = run.1.
Proof.
  cbv zeta.
  destruct (get_azure_blob_url_run ext st) as (new & Hrun & Hs).
  destruct (wait_for_uploads_run ext st) as (new' & Hwait & _).
  destruct (get_azure_blob_url_run ext (with_trace st (trace st ++ new)))
    as (new1 & Hrun1 & _).
  destruct (get_azure_blob_url_run ext (with_trace st (trace st ++ new')))
    as (new2 & Hrun2 & _).
  rewrite Hwait, Hrun. cbn [fst snd]. rewrite Hrun1, Hrun2, new_events_with_trace.
  cbn. repeat split; auto. by destruct st.
Qed.

(** X10.  No method changes what was loaded at construction: at any point
    of a coordinator's life the file key, [configured_providers] and
    [has_storage_configured] are what they were right after construction. *)
Theorem configuration_is_fixed_at_construction
    (env : gmap string string) (fk : string) (st : State) :
  reachable AZURE_AVAILABLE ext env fk st ->
  let m0 := self (__init__ AZURE_AVAILABLE env fk) in
  file_key (self st) = fk /\
  configured_providers (self st) = configured_providers m0 /\
  has_storage_configured (self st) = has_storage_configured m0.
Proof.
  intros Hreach. cbv zeta.
  destruct (reachable_inv AZURE_AVAILABLE ext env fk st Hreach) as (_ & Hfk & Hcfg & _).
  unfold configured_providers, has_storage_configured, __init__.
  cbn [self storage_configs]. by rewrite Hcfg.
Qed.

End upload_accounting.


Lemma wait_for_uploads_is_quiet_unless_a_wait_raises_witness :
  let st := (upload_file true ext_ok "/tmp/rec.mp4" None
               (__init__ true env_both "rec.mp4")).2 in
  handles_allocated st /\
  exception_logs (new_events st (wait_for_uploads ext_ok st).2) = [].
Proof.
  apply (wait_for_uploads_is_quiet_unless_a_wait_raises true ext_ok env_both "rec.mp4").
  - apply reachable_upload_file, reachable_init.
  - reflexivity.
  - reflexivity.
Defined.

Lemma configuration_is_fixed_at_construction_witness :
  let st := (wait_for_uploads ext_ok
               (upload_file true ext_ok "/tmp/rec.mp4" None
                  (__init__ true env_both "rec.mp4")).2).2 in
  file_key (self st) = "rec.mp4" /\
  configured_providers (self st) = ["s3"; "azure"] /\
  has_storage_configured (self st) = true.
Proof.
  apply (configuration_is_fixed_at_construction true ext_ok env_both "rec.mp4").
  apply reachable_wait_for_uploads, reachable_upload_file, reachable_init.
Defined.

(** * Deleting the local file, and the worker *)

Section local_file_facts.
Variable AZURE_AVAILABLE : bool.
Variable ext : Externals.
Variable unlink_raises : string -> option exn.
Variable FileUploader_delete_file :
  gset string -> string -> result unit * gset string * list event.

(** X11.  [delete_file] never raises on a path that does not exist and then
    changes and logs nothing.  When it returns, the path is gone, every
    other path is left as it was, and deleting again is a silent no-op; when
    [unlink] raises, the error propagates and the file system is unchanged. *)
Theorem delete_file_removes_only_that_path (files : gset string) (file_path : string) :
  let run := local_files.delete_file unlink_raises files file_path in
  match run.1.1 with
  | Ok _ =>
      (file_path ∉ run.1.2) /\
      (forall other, other <> file_path -> other ∈ run.1.2 <-> other ∈ files) /\
      local_files.delete_file unlink_raises run.1.2 file_path = (Ok tt, run.1.2, []) /\
      run.2 = (if bool_decide (file_path ∈ files)
               then [Log info ("Deleted local file: " +:+ file_path)] else [])
  | Raise e =>
      file_path ∈ files /\ unlink_raises file_path = Some e /\
      run.1.2 = files /\ run.2 = []
  end.
Proof.
  cbv zeta. unfold local_files.delete_file.
  case_bool_decide as Hin.
  - destruct (unlink_raises file_path) as [e|] eqn:Hun; cbn.
    + auto.
    + assert (Hgone : file_path ∉ files ∖ {[file_path]}).
      { rewrite elem_of_difference, elem_of_singleton. tauto. }
      rewrite bool_decide_eq_false_2 by done.
      repeat split; auto.
      * rewrite elem_of_difference. tauto.
      * intros Hother. rewrite elem_of_difference, elem_of_singleton. tauto.
  - cbn. rewrite bool_decide_eq_false_2 by done. repeat split; auto.
Qed.

(** X12.  On a coordinator, at any point of its life, [delete_local_file]
    deletes nothing and returns when no upload was ever started; otherwise
    it is one call of [delete_file] on the uploader of the first upload the
    coordinator ever started, whatever the other uploaders are. *)
Theorem delete_local_file_uses_the_first_started_uploader
    (env : gmap string string) (fk : string) (st : State)
    (files : gset string) (file_path : string) :
  reachable AZURE_AVAILABLE ext env fk st ->
  local_files.delete_local_file unlink_raises FileUploader_delete_file st files file_path
  = match started (trace st) with
    | [] => (Ok tt, files, [])
    | first :: _ =>
        match heap st !! first with
        | Some (S3Uploader _) => FileUploader_delete_file files file_path
        | _ => local_files.delete_file unlink_raises files file_path
        end
    end.
Proof.
  intros Hreach.
  destruct (reachable_inv AZURE_AVAILABLE ext env fk st Hreach) as (_ & _ & _ & Hth & _).
  destruct (reachable_handles AZURE_AVAILABLE ext env fk st Hreach) as (_ & [Ha _] & _).
  unfold local_files.delete_local_file. rewrite <- Hth.
  destruct (upload_threads (self st)) as [|r l]; [reflexivity|].
  specialize (Ha r). destruct (heap st !! r) as [[fu|u]|]; try reflexivity.
  exfalso. apply Ha. apply elem_of_cons. by left.
Qed.

Lemma upload_worker_trace (u : AzureFileUploader) (file_path : string)
    (callback : option callable) (st : State) :
  azure_file_uploader._upload_worker AZURE_AVAILABLE ext u file_path callback st
  = (Ok tt,
     with_trace st
       (trace st
        ++ match upload_error ext u file_path with
           | None => [UploadBlob (container_name u) (blob_name u) file_path]
           | Some _ => []
           end
        ++ [Log (worker_log AZURE_AVAILABLE ext u file_path).1
              (worker_log AZURE_AVAILABLE ext u file_path).2]
        ++ match callback with
           | Some c =>
               [CallUploaderCallback c
                  (bool_decide (upload_error ext u file_path = None))]
           | None => []
           end)).
Proof.
  unfold azure_file_uploader._upload_worker, worker_log, upload_error, try_except,
    azure_file_uploader.invoke.
  unfold mbind, M_bind, lift, logger, emit, modify, call, raise, mret, M_ret, with_trace.
  destruct (path_exists ext file_path) as [[|]|e0]; cbn.
  2-3: destruct (azure_file_uploader.is_AzureError AZURE_AVAILABLE _), callback; cbn;
       rewrite <- ?app_assoc, ?app_nil_r; reflexivity.
  destruct (get_blob_client ext _ _ _) as [e1|]; cbn.
  { destruct (azure_file_uploader.is_AzureError AZURE_AVAILABLE _), callback; cbn;
      rewrite <- ?app_assoc, ?app_nil_r; reflexivity. }
  destruct (open_rb ext file_path) as [e2|]; cbn.
  { destruct (azure_file_uploader.is_AzureError AZURE_AVAILABLE _), callback; cbn;
      rewrite <- ?app_assoc, ?app_nil_r; reflexivity. }
  destruct (upload_blob ext _ _ _ _) as [e3|]; cbn.
  { destruct (azure_file_uploader.is_AzureError AZURE_AVAILABLE _), callback; cbn;
      rewrite <- ?app_assoc, ?app_nil_r; reflexivity. }
  destruct callback; cbn; rewrite <- ?app_assoc, ?app_nil_r; reflexivity.
Qed.



End local_file_facts.

(** X14.  Once [delete_file] has returned for a path, a background upload
    of that path that only then gets to run writes no blob and tells its
    callback false: the local file must outlive the uploads. *)
Theorem upload_after_delete_fails
    (AZURE_AVAILABLE : bool) (ext : Externals) (unlink_raises : string -> option exn)
    (files files' : gset string) (file_path : string) (log : list event)
    (u : AzureFileUploader) (c : callable) (st : State) :
  local_files.delete_file unlink_raises files file_path = (Ok tt, files', log) ->
  let run := azure_file_uploader._upload_worker AZURE_AVAILABLE
               (with_files ext files') u file_path (Some c) st in
  run.1 = Ok tt /\
  upload_error (with_files ext files') u file_path
  = Some (Exn FileNotFoundError ("File not found: " +:+ file_path)) /\
  uploaded (new_events st run.2) = [] /\
  uploader_callbacks (new_events st run.2) = [false].
Proof.
  intros Hdel. cbv zeta.
  assert (Hgone : file_path ∉ files').
  { revert Hdel. unfold local_files.delete_file. case_bool_decide as Hin.
    - destruct (unlink_raises file_path); [discriminate|].
      intros [= <- _]. rewrite elem_of_difference, elem_of_singleton. tauto.
    - by intros [= <- _]. }
  assert (Herr : upload_error (with_files ext files') u file_path
                 = Some (Exn FileNotFoundError ("File not found: " +:+ file_path))).
  { unfold upload_error, with_files. cbn [path_exists].
    by rewrite bool_decide_eq_false_2. }
  rewrite upload_worker_trace. cbn [fst snd]. rewrite new_events_with_trace, Herr.
  repeat split; reflexivity.
Qed.

Lemma upload_after_delete_fails_witness :
  let run := azure_file_uploader._upload_worker true
               (with_files ext_ok ∅) sample_uploader "/tmp/rec.mp4"
               (Some (caller_callable 0)) (__init__ true env_azure "rec.mp4") in
  run.1 = Ok tt /\
  upload_error (with_files ext_ok ∅) sample_uploader "/tmp/rec.mp4"
  = Some (Exn FileNotFoundError ("File not found: " +:+ "/tmp/rec.mp4")) /\
  uploaded (new_events (__init__ true env_azure "rec.mp4") run.2) = [] /\
  uploader_callbacks (new_events (__init__ true env_azure "rec.mp4") run.2) = [false].
Proof.
  apply (upload_after_delete_fails true ext_ok (fun _ => None)
           {["/tmp/rec.mp4"]} ∅ "/tmp/rec.mp4"
           [Log info "Deleted local file: /tmp/rec.mp4"]).
  vm_compute. reflexivity.
Defined.

Lemma delete_local_file_uses_the_first_started_uploader_witness :
  let st := (upload_file true ext_ok "/tmp/rec.mp4" None
               (__init__ true env_azure "rec.mp4")).2 in
  local_files.delete_local_file (fun _ => None) (fun files _ => (Ok tt, files, []))
    st {["/tmp/rec.mp4"]} "/tmp/rec.mp4"
  = match started (trace st) with
    | [] => (Ok tt, {["/tmp/rec.mp4"]}, [])
    | first :: _ =>
        match heap st !! first with
        | Some (S3Uploader _) => (Ok tt, {["/tmp/rec.mp4"]}, [])
        | _ => local_files.delete_file (fun _ => None) {["/tmp/rec.mp4"]} "/tmp/rec.mp4"
        end
    end.
Proof.
  apply (delete_local_file_uses_the_first_started_uploader true ext_ok
           (fun _ => None) (fun files _ => (Ok tt, files, [])) env_azure "rec.mp4").
  apply reachable_upload_file, reachable_init.
Defined.

(** * From the environment to the uploaders *)

Lemma azure_only_loaded (env : gmap string string) :
  upload_mode_of env = "azure" ->
  truthy (getenv env "AZURE_STORAGE_CONTAINER_NAME") = true ->
  truthy (getenv env "AZURE_STORAGE_ACCOUNT_NAME")
  || truthy (getenv env "AZURE_STORAGE_CONNECTION_STRING")
  || truthy (getenv env "AZURE_STORAGE_ACCOUNT_KEY") = true ->
  _load_storage_configs true env = ([azure_config_of env], []).
Proof.
  intros Hmode Hc Hany.
  unfold _load_storage_configs, _should_use_aws, _should_use_azure.
  fold (upload_mode_of env). rewrite Hmode.
  change (bool_decide ("azure" ∈ ["s3"; "both"; "all"])) with false.
  change (bool_decide ("azure" ∈ ["azure"; "both"; "all"]) && true) with true.
  cbv iota. unfold _get_azure_config.
  destruct (azure_config_lookups
              (getenv env "AZURE_STORAGE_CONTAINER_NAME")
              (getenv env "AZURE_STORAGE_ACCOUNT_NAME")
              (getenv env "AZURE_STORAGE_CONNECTION_STRING")
              (getenv env "AZURE_STORAGE_ACCOUNT_KEY")) as (Hc' & Ha' & Hs' & Hk').
  cbv zeta in *. rewrite Ha', Hs', Hk', Hc, Hany. cbn [negb].
  rewrite append_if_nonempty. cbn [app List.filter validate provider config].
  rewrite Hc', Hc. reflexivity.
Qed.

Lemma strategy_needs_a_name_or_a_connection_string a c k s :
  strategy_by_priority a c k = Some s -> truthy a || truthy c || truthy k = true.
Proof.
  unfold strategy_by_priority.
  destruct (truthy a), (truthy c), (truthy k); cbn; congruence.
Qed.

(** X15.  In mode azure, when the SDK builds the client and the thread
    starts, [upload_file] leaves one Blob uploader, built from the
    environment: the container of the setting, the file key as blob name,
    the client of the strategy chosen for the three authentication settings,
    and the thread of this upload with the [azure_callback] closure.  The
    handle kept for the URL and the handle kept for waiting are this one
    object, and [get_azure_blob_url] answers with its URL. *)
Theorem blob_uploader_is_built_from_the_environment
    (ext : Externals) (env : gmap string string) (fk file_path : string)
    (callback : option callable) (s : AuthStrategy) :
  let account := getenv env "AZURE_STORAGE_ACCOUNT_NAME" in
  let connection := getenv env "AZURE_STORAGE_CONNECTION_STRING" in
  let key := getenv env "AZURE_STORAGE_ACCOUNT_KEY" in
  let thread := mkThread file_path (Some azure_callback) in
  let uploader :=
    mkAzureFileUploader (getenv env "AZURE_STORAGE_CONTAINER_NAME") fk (Some thread)
      (client_for s account connection key) in
  upload_mode_of env = "azure" ->
  present (getenv env "AZURE_STORAGE_CONTAINER_NAME") ->
  strategy_by_priority account connection key = Some s ->
  sdk_verdict ext (client_for s account connection key) = None ->
  thread_start ext thread = None ->
  let st := __init__ true env fk in
  let run := upload_file true ext file_path callback st in
  run.1 = Ok tt /\
  heap run.2 = {[ 0 := AzureUploader uploader ]} /\
  azure_uploader (self run.2) = Some 0 /\
  upload_threads (self run.2) = [0] /\
  new_events st run.2 = [strategy_log s; ThreadStart 0 thread] /\
  (get_azure_blob_url ext run.2).1 = Ok (url_of ext uploader).
Proof.
  cbv zeta. intros Hmode Hc Hs Hsdk Hstart.
  apply truthy_present in Hc.
  pose proof (strategy_needs_a_name_or_a_connection_string _ _ _ _ Hs) as Hany.
  destruct (azure_config_lookups
              (getenv env "AZURE_STORAGE_CONTAINER_NAME")
              (getenv env "AZURE_STORAGE_ACCOUNT_NAME")
              (getenv env "AZURE_STORAGE_CONNECTION_STRING")
              (getenv env "AZURE_STORAGE_ACCOUNT_KEY")) as (Hc' & Ha' & Hs' & Hk').
  cbv zeta in *.
  unfold upload_file, __init__, new_events.
  rewrite (azure_only_loaded env Hmode Hc Hany).
  unfold mbind, M_bind, mret, M_ret, get_state, modify, try_except, lift.
  cbn [fst snd self storage_configs upload_loop provider azure_config_of trace length drop].
  unfold _upload_to_azure, dict_getitem.
  unfold mbind, M_bind, mret, M_ret, get_state, modify, try_except, lift.
  change (config _ !! "container_name")
    with (Some (getenv env "AZURE_STORAGE_CONTAINER_NAME")).
  unfold azure_config_of. cbn [self file_key config].
  rewrite azure_file_uploader_init_run, Ha', Hs', Hk', Hs.
  cbv zeta. rewrite Hsdk.
  unfold azure_file_uploader.upload_file, set_self, store, deref_azure, with_object,
    call, emit, modify, raise.
  unfold mbind, M_bind, mret, M_ret.
  cbn [fst snd self heap next_oid successful_uploads failed_uploads trace
       file_key storage_configs upload_threads azure_uploader].
  rewrite lookup_insert_eq.
  cbn [container_name blob_name blob_service_client].
  rewrite Hstart.
  cbn [fst snd self heap next_oid successful_uploads failed_uploads trace
       file_key storage_configs upload_threads azure_uploader app].
  rewrite insert_insert_eq.
  split; [reflexivity|]. split; [reflexivity|]. split; [reflexivity|].
  split; [reflexivity|]. split; [reflexivity|].
  match goal with |- (get_azure_blob_url ext ?st').1 = _ =>
    destruct (get_azure_blob_url_run ext st') as (new & -> & _) end.
  cbn [fst self heap azure_uploader]. by rewrite lookup_insert_eq.
Qed.

Lemma blob_uploader_is_built_from_the_environment_witness :
  let thread := mkThread "/tmp/rec.mp4" (Some azure_callback) in
  let uploader :=
    mkAzureFileUploader (Some "recordings") "rec.mp4" (Some thread)
      (ClientForAccount "https://acct.blob.core.windows.net" DefaultAzureCredential) in
  let st := __init__ true env_azure "rec.mp4" in
  let run := upload_file true ext_ok "/tmp/rec.mp4" None st in
  run.1 = Ok tt /\
  heap run.2 = {[ 0 := AzureUploader uploader ]} /\
  azure_uploader (self run.2) = Some 0 /\
  upload_threads (self run.2) = [0] /\
  new_events st run.2 = [strategy_log ManagedIdentity; ThreadStart 0 thread] /\
  (get_azure_blob_url ext_ok run.2).1 = Ok (url_of ext_ok uploader).
Proof.
  apply (blob_uploader_is_built_from_the_environment ext_ok env_azure "rec.mp4"
           "/tmp/rec.mp4" None ManagedIdentity).
  - reflexivity.
  - exists "recordings". split; [reflexivity|discriminate].
  - reflexivity.
  - reflexivity.
  - reflexivity.
Defined.

Lemma s3_config_is_loaded_first (AZURE_AVAILABLE : bool) (env : gmap string string) :
  _should_use_aws env = true ->
  truthy (getenv env "AWS_RECORDING_STORAGE_BUCKET_NAME") = true ->
  exists rest,
    (_load_storage_configs AZURE_AVAILABLE env).1 = aws_config_of env :: rest.
Proof.
  intros Haws Hb. unfold _load_storage_configs. rewrite Haws.
  unfold _get_aws_config. rewrite Hb. cbn [negb]. rewrite append_if_nonempty.
  assert (Hv : validate (aws_config_of env) = true).
  { unfold validate, aws_config_of. cbn [provider config].
    by rewrite aws_config_lookup. }
  fold (aws_config_of env). cbn [app].
  destruct (_should_use_azure AZURE_AVAILABLE env).
  - destruct (_get_azure_config env) as [[d|] w]; cbn [append_if fst].
    + case_bool_decide; cbn [app List.filter]; rewrite Hv; eauto.
    + cbn [List.filter]. rewrite Hv. eauto.
  - cbn [fst List.filter]. rewrite Hv. eauto.
Qed.

(** X16.  When S3 is enabled and a bucket is set, the S3 uploader is the
    first thing [upload_file] builds, from the environment as it is: the
    bucket, the file key, and the endpoint, region and key pair settings,
    absent ones being passed on as absent.  Once it has started, its handle
    is the first in [upload_threads] and its start, with the [s3_callback]
    closure, is the first event of the call, before anything of Blob. *)
Theorem s3_uploader_is_built_from_the_environment
    (AZURE_AVAILABLE : bool) (ext : Externals) (env : gmap string string)
    (fk file_path : string) (callback : option callable) :
  _should_use_aws env = true ->
  present (getenv env "AWS_RECORDING_STORAGE_BUCKET_NAME") ->
  new_FileUploader ext (s3_uploader_of env fk) = None ->
  FileUploader_upload_file ext (s3_uploader_of env fk) file_path (Some s3_callback)
  = None ->
  let st := __init__ AZURE_AVAILABLE env fk in
  let run := upload_file AZURE_AVAILABLE ext file_path callback st in
  run.1 = Ok tt /\
  heap run.2 !! 0 = Some (S3Uploader (s3_uploader_of env fk)) /\
  head (upload_threads (self run.2)) = Some 0 /\
  head (new_events st run.2) = Some (S3UploadStart 0 file_path (Some s3_callback)).
Proof.
  cbv zeta. intros Haws Hb Hnew Hup. apply truthy_present in Hb.
  destruct (s3_config_is_loaded_first AZURE_AVAILABLE env Haws Hb) as (rest & Hload).
  set (st := __init__ AZURE_AVAILABLE env fk).
  set (st1 := mkState
                (mkUnifiedStorageManager fk (aws_config_of env :: rest) [0] None)
                {[ 0 := S3Uploader (s3_uploader_of env fk) ]} 1 [] []
                (trace st ++ [S3UploadStart 0 file_path (Some s3_callback)])).
  assert (Hfirst : upload_loop AZURE_AVAILABLE ext [aws_config_of env] file_path callback
                     (mkState (self st) (heap st) (next_oid st) [] [] (trace st))
                   = (Ok tt, st1)).
  { subst st st1. unfold __init__. rewrite Hload.
    cbn [upload_loop self heap next_oid trace].
    change (provider (aws_config_of env)) with AWS_S3. cbv iota.
    unfold _upload_to_s3, dict_getitem.
    unfold mbind, M_bind, mret, M_ret, get_state, modify, try_except, lift.
    change (config (aws_config_of env) !! "bucket")
      with (Some (getenv env "AWS_RECORDING_STORAGE_BUCKET_NAME")).
    change (dict_get (config (aws_config_of env)) "endpoint_url")
      with (getenv env "AWS_ENDPOINT_URL").
    change (dict_get (config (aws_config_of env)) "region_name")
      with (getenv env "AWS_DEFAULT_REGION").
    change (dict_get (config (aws_config_of env)) "access_key_id")
      with (getenv env "AWS_ACCESS_KEY_ID").
    change (dict_get (config (aws_config_of env)) "secret_access_key")
      with (getenv env "AWS_SECRET_ACCESS_KEY").
    cbn [self file_key]. fold (s3_uploader_of env fk).
    unfold call, alloc, emit, set_self, modify, mret, M_ret. rewrite Hnew, Hup.
    reflexivity. }
  assert (Hb1 : heap_bounded st1).
  { intros r Hr1. subst st1. cbn in *. apply lookup_singleton_ne. lia. }
  destruct (upload_loop_extends AZURE_AVAILABLE ext rest file_path callback st1 Hb1)
    as (st2 & Hrest & Hext & _).
  assert (Hrun : upload_file AZURE_AVAILABLE ext file_path callback st = (Ok tt, st2)).
  { unfold upload_file. unfold mbind at 1. unfold M_bind, get_state.
    replace (storage_configs (self st)) with (aws_config_of env :: rest)
      by (subst st; unfold __init__; by rewrite Hload).
    unfold mbind, M_bind, modify.
    by rewrite (upload_loop_cons AZURE_AVAILABLE ext _ _ _ _ _ _ Hfirst). }
  rewrite Hrun. cbn [fst snd].
  destruct Hext as (_ & _ & _ & Hheap & _ & (new & added & Htr & _ & Hth) & _).
  split; [reflexivity|]. split; [|split].
  - rewrite Hheap by (subst st1; cbn; lia). subst st1. cbn. apply lookup_singleton_eq.
  - rewrite Hth. reflexivity.
  - unfold new_events. rewrite Htr. subst st1. cbn [trace].
    rewrite <- app_assoc, drop_app_length. reflexivity.
Qed.

Lemma s3_uploader_is_built_from_the_environment_witness :
  let st := __init__ true env_both "rec.mp4" in
  let run := upload_file true ext_ok "/tmp/rec.mp4" None st in
  run.1 = Ok tt /\
  heap run.2 !! 0 = Some (S3Uploader (s3_uploader_of env_both "rec.mp4")) /\
  head (upload_threads (self run.2)) = Some 0 /\
  head (new_events st run.2) = Some (S3UploadStart 0 "/tmp/rec.mp4" (Some s3_callback)).
Proof.
  apply (s3_uploader_is_built_from_the_environment true ext_ok env_both "rec.mp4"
           "/tmp/rec.mp4" None).
  - reflexivity.
  - exists "recordings". split; [reflexivity|discriminate].
  - reflexivity.
  - reflexivity.
Defined.

(** * Completion reports *)

Lemma logs_app tr1 tr2 : logs (tr1 ++ tr2) = logs tr1 ++ logs tr2.
Proof.
  induction tr1 as [|ev tr1 IH]; [reflexivity|].
  destruct ev; cbn; by rewrite ?IH.
Qed.




